(** * DuoScience client: submit-then-stream protocol

    A shallow embedding of [duoscience/client.py] (class
    [DuoScienceClient]) and the properties of its request composer
    ([_prepare_files], [chat], [research], [hypotheses]) and of its
    task initiator and event stream consumer ([_stream_task]).

    Python values are a small inductive type, dictionaries are stdpp
    finite maps keyed by strings, raised exceptions are an explicit
    result type, and a generator is the list of values it yields
    together with the way it finishes. The collaborators the module
    calls into (the file loader, the image compressor, [mimetypes],
    [json.loads], [requests.post] and the [SSEClient] iterator) are
    section variables or scripted outcomes. Logging has no influence
    on any value and is left out. *)

From stdpp Require Import gmap strings list fin_maps pretty.

Set Warnings "-register-all".

Open Scope Z_scope.

(* ===================================================================== *)
(** ** Python values *)
(* ===================================================================== *)

(** The JSON-like values the client handles. [PFloat] carries the IEEE
    bit pattern; the client only ever tests such a value for truth. *)
Inductive pyval : Type :=
  | PNone
  | PBool (b : bool)
  | PInt (z : Z)
  | PFloat (bits : Z)
  | PStr (s : string)
  | PList (l : list pyval)
  | PDict (d : gmap string pyval).

(** Python truth value, as tested by [if x:] and [not x]. *)
Definition truthy (v : pyval) : bool :=
  match v with
  | PNone => false
  | PBool b => b
  | PInt z => negb (z =? 0)
  | PFloat bits => negb ((bits =? 0) || (bits =? 2 ^ 63))
  | PStr s => negb (String.eqb s "")
  | PList l => match l with [] => false | _ => true end
  | PDict d => negb (bool_decide (dom d = ∅))
  end.

(* ===================================================================== *)
(** ** Exceptions and fallible computations *)
(* ===================================================================== *)

(** The exception classes that occur. [ConnectionError] is the builtin
    class (a subclass of [OSError]); the classes of the [requests]
    package are separate: [RequestException] is their base, and
    [HTTPError], [RequestsConnectionError], [RequestsTimeout] and
    [RequestsJSONDecodeError] are subclasses of it. [KeyboardInterrupt]
    derives from [BaseException] only. *)
Inductive exn_class : Type :=
  | ValueError
  | TypeError
  | AttributeError
  | OSError
  | ConnectionError
  | JSONDecodeError
  | RequestException
  | HTTPError
  | RequestsConnectionError
  | RequestsTimeout
  | RequestsJSONDecodeError
  | KeyboardInterrupt.

Record exn : Type := Exn { exn_cls : exn_class; exn_msg : string }.

(** [isinstance(e, Exception)]. *)
Definition is_Exception (e : exn) : bool :=
  match exn_cls e with
  | KeyboardInterrupt => false
  | _ => true
  end.

(** [isinstance(e, requests.exceptions.RequestException)]. *)
Definition is_RequestException (e : exn) : bool :=
  match exn_cls e with
  | RequestException | HTTPError | RequestsConnectionError
  | RequestsTimeout | RequestsJSONDecodeError => true
  | _ => false
  end.

(** A call either returns a value or raises. *)
Inductive res (A : Type) : Type :=
  | Ret (a : A)
  | Raise (e : exn).
Arguments Ret {A} a.
Arguments Raise {A} e.

#[global] Instance res_ret : MRet res := λ A a, Ret a.
#[global] Instance res_bind : MBind res := λ A B f m,
  match m with
  | Ret a => f a
  | Raise e => Raise e
  end.

Definition raised {A} (r : res A) : bool :=
  match r with Ret _ => false | Raise _ => true end.

(* ===================================================================== *)
(** ** Client configuration *)
(* ===================================================================== *)

Record DuoScienceClient : Type := {
  base_url : string;
  timeout : Z;
  auto_compress_images : bool;
  image_max_dim : Z;
  image_quality : Z;
  convert_images_to_jpeg : bool
}.

(* ===================================================================== *)
(** ** Request composer: file normalisation *)
(* ===================================================================== *)

Definition REQUIRED_KEYS : list string := ["filename"; "content_type"; "base64"].

(** [[k for k in ("filename", "content_type", "base64") if k not in item]] *)
Definition missing_keys (item : gmap string pyval) : list string :=
  filter (λ k, k ∉ dom item) REQUIRED_KEYS.

(** Python's [repr] of a list of plain strings, as an f-string prints it. *)
Definition repr_str_list (l : list string) : string :=
  "[" +:+ String.concat ", " ((λ k, "'" +:+ k +:+ "'") <$> l) +:+ "]".

Definition MSG_NO_LOADER : string :=
  "load_file_as_payload utility is not available; cannot convert file paths.".
Definition MSG_MISSING_KEYS (missing : list string) : string :=
  "Invalid file object, missing keys: " +:+ repr_str_list missing.
Definition MSG_BAD_ITEM : string :=
  "`files` must be a list of file paths or dicts with filename/content_type/base64".
Definition MSG_TOO_MANY : string :=
  "Too many files: maximum is 10 per request.".

(** What the module imports from its collaborators. The two helpers of
    [duoscience.utils] are optional: they are [None] when the import at
    the top of the module failed. *)
Record imports : Type := {
  load_file_as_payload : option (string → res pyval);
  compress_image : option (string → Z → Z → bool → res string);
  (** [mimetypes.guess_type(path)[0]] *)
  guess_type : string → option string;
  (** [json.loads] *)
  json_loads : string → res pyval
}.

Section Composer.

Context (lib : imports).

(** The path handed to the loader for the path element [item]. *)
Definition path_to_use (self : DuoScienceClient) (item : string) : res string :=
  if auto_compress_images self then
    let mime := default "" (guess_type lib item) in
    if String.prefix "image/" mime then
      match compress_image lib with
      | Some compress =>
          match compress item (image_max_dim self) (image_quality self)
                         (convert_images_to_jpeg self) with
          | Ret p => Ret p
          | Raise ce => if is_Exception ce then Ret item else Raise ce
          end
      | None => Ret item
      end
    else Ret item
  else Ret item.

(** One turn of the loop of [_prepare_files]: the descriptor appended
    for [item], or the exception raised. *)
Definition prepare_item (self : DuoScienceClient) (item : pyval) : res pyval :=
  match item with
  | PStr path =>
      match load_file_as_payload lib with
      | None => Raise (Exn ValueError MSG_NO_LOADER)
      | Some load => p ← path_to_use self path; load p
      end
  | PDict d =>
      let missing := missing_keys d in
      match missing with
      | [] => Ret item
      | _ => Raise (Exn ValueError (MSG_MISSING_KEYS missing))
      end
  | _ => Raise (Exn ValueError MSG_BAD_ITEM)
  end.

Fixpoint prepare_loop (self : DuoScienceClient) (files : list pyval)
    (prepared : list pyval) : res (list pyval) :=
  match files with
  | [] => Ret prepared
  | item :: rest =>
      d ← prepare_item self item;
      prepare_loop self rest (prepared ++ [d])
  end.

Definition _prepare_files (self : DuoScienceClient)
    (files : option (list pyval)) : res (option (list pyval)) :=
  match files with
  | None | Some [] => Ret None
  | Some fs =>
      prepared ← prepare_loop self fs [];
      if (10 <? length prepared)%nat
      then Raise (Exn ValueError MSG_TOO_MANY)
      else Ret (Some prepared)
  end.

(* ===================================================================== *)
(** ** Request composer: the task methods *)
(* ===================================================================== *)

(** A call [m(user_id, chat_id, content, files, **extra)] of one of the
    task methods, whose signature is
    [(self, user_id, chat_id, content=None, files=None, **kwargs)].
    [call_content] and [call_files] are [PNone] / [None] when the caller
    leaves them out; [call_extra] lists the further keyword arguments
    in the order they are written. *)
Record call : Type := {
  call_user_id : pyval;
  call_chat_id : pyval;
  call_content : pyval;
  call_files : option (list pyval);
  call_extra : list (string * pyval)
}.

(** The parameter names of the signature. Python binds a keyword
    argument with one of these names to the parameter itself; it never
    reaches [**kwargs]. *)
Definition PARAMETERS : list string :=
  ["self"; "user_id"; "chat_id"; "content"; "files"].

(** The texts of the interpreter: the first names the function by its
    qualified name, the second by its module and qualified name. *)
Definition MSG_MULTIPLE_VALUES (method k : string) : string :=
  "DuoScienceClient." +:+ method +:+ "() got multiple values for argument '" +:+ k +:+ "'".
Definition MSG_REPEATED_KEYWORD (method k : string) : string :=
  "duoscience.client.DuoScienceClient." +:+ method
  +:+ "() got multiple values for keyword argument '" +:+ k +:+ "'".

(** The first keyword that is written twice, if any ([seen] holds the
    keywords met so far). *)
Fixpoint first_repeated (seen : list string) (ks : list string) : option string :=
  match ks with
  | [] => None
  | k :: rest =>
      if bool_decide (k ∈ seen) then Some k else first_repeated (k :: seen) rest
  end.

(** Python's binding of the further keyword arguments to [**kwargs],
    the named parameters being already supplied. A keyword given twice
    is rejected where the call is built, a keyword naming a parameter
    when the arguments are bound; both are a [TypeError] raised before
    the body of the method runs. *)
Definition bind_kwargs (method : string) (extra : list (string * pyval))
    : res (gmap string pyval) :=
  match first_repeated [] extra.*1 with
  | Some k => Raise (Exn TypeError (MSG_REPEATED_KEYWORD method k))
  | None =>
      match List.find (λ k, bool_decide (k ∈ PARAMETERS)) extra.*1 with
      | Some k => Raise (Exn TypeError (MSG_MULTIPLE_VALUES method k))
      | None => Ret (list_to_map extra)
      end
  end.

(** What a task method hands to [_stream_task]. *)
Record task : Type := {
  task_endpoint : string;
  task_payload : gmap string pyval
}.

(** The common body of [chat], [research] and [hypotheses], which
    differ in the endpoint only:
[[
payload = {"user_id": user_id, "chat_id": chat_id, **kwargs}
if content is not None:
    payload["content"] = content
prepared_files = self._prepare_files(files)
if prepared_files:
    payload["files"] = prepared_files
return self._stream_task(endpoint, payload)
]]
    In the dict display a later entry replaces an earlier one with the
    same key, which is the left-biased union with [kwargs] on the left. *)
Definition compose (self : DuoScienceClient) (endpoint : string)
    (user_id chat_id content : pyval) (files : option (list pyval))
    (kwargs : gmap string pyval) : res task :=
  let payload : gmap string pyval :=
    kwargs ∪ <["chat_id" := chat_id]> (<["user_id" := user_id]> ∅) in
  let payload :=
    match content with
    | PNone => payload
    | _ => <["content" := content]> payload
    end in
  prepared_files ← _prepare_files self files;
  let payload :=
    match prepared_files with
    | Some prepared =>
        if truthy (PList prepared)
        then <["files" := PList prepared]> payload
        else payload
    | None => payload
    end in
  Ret {| task_endpoint := endpoint; task_payload := payload |}.

Definition task_method (method endpoint : string)
    (self : DuoScienceClient) (c : call) : res task :=
  kwargs ← bind_kwargs method (call_extra c);
  compose self endpoint (call_user_id c) (call_chat_id c) (call_content c)
          (call_files c) kwargs.

Definition chat := task_method "chat" "/chat/".
Definition research := task_method "research" "/research/".
Definition hypotheses := task_method "hypotheses" "/hypotheses/".

End Composer.


(* ===================================================================== *)
(** ** Task initiator and event stream consumer *)
(* ===================================================================== *)

(** The [requests.Response] of the initiation call: [resp_url] is
    [response.url], the URL of the request as [requests] has prepared
    it; [resp_json] is what [response.json()] returns or raises for the
    body [resp_text]. *)
Record Response : Type := {
  status_code : Z;
  reason : string;
  resp_url : string;
  resp_text : string;
  resp_json : res pyval
}.

(** One [next()] on the [SSEClient] iterator: an event with its [data]
    field, or an exception. The client sees the stream through
    Python's iterator protocol only, so a stream is the script of what
    the successive [next()] calls do. The end of a script is the end
    of the iteration, where a [for] loop is left without an exception;
    the [SSEClient] iterator does not end by itself (it connects again
    when the server closes the stream, and a connection it cannot get
    back is an exception of [next()]), so the scripts of its runs are
    left by the [break] on a terminal event or by an exception. A
    script is finite: a stream that pushes non-terminal events for
    ever is outside this model. *)
Inductive sse_next : Type :=
  | SseEvent (data : string)
  | SseRaise (e : exn).

(** The server and the transport, as the client meets them:
    [net_post endpoint payload] is the outcome of [requests.post] on
    [base_url + endpoint]; [net_sse task_id] is the outcome of
    [SSEClient(base_url + "/stream/" + task_id)], which raises or gives
    the results of the successive [next()] calls. *)
Record network : Type := {
  net_post : string → gmap string pyval → res Response;
  net_sse : pyval → res (list sse_next)
}.

(** The network calls a generator makes, in order. *)
Inductive io_event : Type :=
  | IoPost (endpoint : string) (payload : gmap string pyval)
  | IoStream (task_id : pyval).

(** A generator run to its end: the values it yields, the exception it
    raises to the caller if it does not return, and its network calls. *)
Record run : Type := {
  yielded : list pyval;
  finish : option exn;
  io : list io_event
}.

(** [Response.raise_for_status()] of [requests]: an [HTTPError] for
    the 4xx and 5xx codes, whose text quotes [response.url]; nothing
    otherwise. *)
Definition raise_for_status (r : Response) : res () :=
  if (400 <=? status_code r) && (status_code r <? 500) then
    Raise (Exn HTTPError (pretty (status_code r) +:+ " Client Error: "
                          +:+ reason r +:+ " for url: " +:+ resp_url r))
  else if (500 <=? status_code r) && (status_code r <? 600) then
    Raise (Exn HTTPError (pretty (status_code r) +:+ " Server Error: "
                          +:+ reason r +:+ " for url: " +:+ resp_url r))
  else Ret ().

Definition type_name (v : pyval) : string :=
  match v with
  | PNone => "NoneType"
  | PBool _ => "bool"
  | PInt _ => "int"
  | PFloat _ => "float"
  | PStr _ => "str"
  | PList _ => "list"
  | PDict _ => "dict"
  end.

(** [v.get(k)]: only a dict has the method. *)
Definition py_get (v : pyval) (k : string) : res pyval :=
  match v with
  | PDict d => Ret (default PNone (d !! k))
  | _ => Raise (Exn AttributeError
                  ("'" +:+ type_name v +:+ "' object has no attribute 'get'"))
  end.

Definition TERMINAL : list string := ["completed"; "error"; "failed"].

(** [status in ["completed", "error", "failed"]] *)
Definition is_terminal_status (status : pyval) : bool :=
  match status with
  | PStr s => bool_decide (s ∈ TERMINAL)
  | _ => false
  end.

Definition error_event (message : string) : pyval :=
  PDict (<["message" := PStr message]> (<["status" := PStr "error"]> ∅)).

Definition MSG_NO_TASK_ID : string :=
  "API Error: Server accepted the task but did not return a task_id.".
Definition MSG_NOT_ACCEPTED (r : Response) : string :=
  "API Error: Failed to start task. Status: " +:+ pretty (status_code r)
  +:+ ", Body: " +:+ resp_text r.
Definition MSG_START_FAILED (e : exn) : string :=
  "Connection Error: Failed to start task. " +:+ exn_msg e.
Definition MSG_STREAM_LOST (e : exn) : string :=
  "Streaming Error: The connection was lost. " +:+ exn_msg e.

(** How the loop over the stream is left. *)
Inductive loop_end : Type :=
  | Exhausted
  | Broke
  | Faulted (e : exn).

Section Stream.

Context (lib : imports).

(** Step 1 of [_stream_task], the body of the first [try]: the task
    handle, or the exception that reaches the [except] clause. *)
Definition initiate (self : DuoScienceClient) (net : network)
    (endpoint : string) (payload : gmap string pyval) : res pyval :=
  response ← net_post net endpoint payload;
  _ ← raise_for_status response;
  if status_code response =? 202 then
    body ← resp_json response;
    task_id ← py_get body "task_id";
    if negb (truthy task_id)
    then Raise (Exn ConnectionError MSG_NO_TASK_ID)
    else Ret task_id
  else Raise (Exn ConnectionError (MSG_NOT_ACCEPTED response)).

(** The [for event in client] loop: the events yielded and how the
    loop is left. *)
Fixpoint sse_loop (script : list sse_next) : list pyval * loop_end :=
  match script with
  | [] => ([], Exhausted)
  | SseRaise e :: _ => ([], Faulted e)
  | SseEvent data :: rest =>
      if String.eqb data "" then sse_loop rest
      else
        match json_loads lib data with
        | Raise e => ([], Faulted e)
        | Ret d =>
            match py_get d "status" with
            | Raise e => ([d], Faulted e)
            | Ret status =>
                if is_terminal_status status then ([d], Broke)
                else let '(ys, r) := sse_loop rest in (d :: ys, r)
            end
        end
  end.

(** The body of the second [try]: opening the stream, then the loop. *)
Definition stream_body (net : network) (task_id : pyval) : list pyval * loop_end :=
  match net_sse net task_id with
  | Raise e => ([], Faulted e)
  | Ret script => sse_loop script
  end.

(** [_stream_task], run to its end. The handler of the first [try]
    catches [requests.exceptions.RequestException] and yields one error
    event; any other exception raised in that [try] leaves the
    generator. The handler of the second [try] catches [Exception] and
    yields one error event behind what the loop has yielded. Nothing
    follows the loop when it ends or breaks. *)
Definition _stream_task (self : DuoScienceClient) (net : network)
    (endpoint : string) (payload : gmap string pyval) : run :=
  match initiate self net endpoint payload with
  | Raise e =>
      if is_RequestException e then
        {| yielded := [error_event (MSG_START_FAILED e)];
           finish := None;
           io := [IoPost endpoint payload] |}
      else
        {| yielded := []; finish := Some e; io := [IoPost endpoint payload] |}
  | Ret task_id =>
      let '(ys, r) := stream_body net task_id in
      let io := [IoPost endpoint payload; IoStream task_id] in
      match r with
      | Exhausted | Broke => {| yielded := ys; finish := None; io := io |}
      | Faulted e =>
          if is_Exception e then
            {| yielded := ys ++ [error_event (MSG_STREAM_LOST e)];
               finish := None; io := io |}
          else {| yielded := ys; finish := Some e; io := io |}
      end
  end.

End Stream.

(* ===================================================================== *)
(** ** A task invocation as the caller sees it *)
(* ===================================================================== *)

(** A task method first composes the payload, which may raise, and then
    returns the generator of [_stream_task]; no network call is made
    before the generator is iterated. *)
Inductive invocation : Type :=
  | Rejected (e : exn)
  | Streamed (r : run).

Definition invoke (method : DuoScienceClient → call → res task)
    (lib : imports) (self : DuoScienceClient) (net : network) (c : call)
    : invocation :=
  match method self c with
  | Raise e => Rejected e
  | Ret t => Streamed (_stream_task lib self net (task_endpoint t) (task_payload t))
  end.

Definition network_calls (i : invocation) : list io_event :=
  match i with
  | Rejected _ => []
  | Streamed r => io r
  end.

(** The three task methods of the client. *)
Definition task_methods (lib : imports)
    : list (DuoScienceClient → call → res task) :=
  [chat lib; research lib; hypotheses lib].

(* ===================================================================== *)
(** ** Vocabulary of the properties *)
(* ===================================================================== *)

(** An event whose [status] is one of completed, error, failed. *)
Definition is_terminal_event (ev : pyval) : bool :=
  match py_get ev "status" with
  | Ret status => is_terminal_status status
  | Raise _ => false
  end.

(** The events of a list up to and including the first terminal one. *)
Fixpoint through_terminal (evs : list pyval) : list pyval :=
  match evs with
  | [] => []
  | ev :: rest =>
      if is_terminal_event ev then [ev] else ev :: through_terminal rest
  end.

(** A sequence that ends in a terminal event and has no other. *)
Definition ends_terminal (ys : list pyval) : Prop :=
  ∃ front ev, ys = front ++ [ev]
              ∧ is_terminal_event ev = true
              ∧ Forall (λ y, is_terminal_event y = false) front.

(** What the caller is promised for an invocation: a fault raised
    before any network call, or a generator that does not raise and
    yields a sequence ending in its only terminal event. *)
Definition fault_or_terminal_sequence (i : invocation) : Prop :=
  match i with
  | Rejected _ => True
  | Streamed r => finish r = None ∧ ends_terminal (yielded r)
  end.

(** The initiation POST is answered, and the answer starts no task:
    its status is neither 202 nor a 4xx or 5xx code, or it is 202 and
    the JSON object of the body has no truthy [task_id]. *)
Definition answer_starts_no_task (resp : Response) : Prop :=
  (status_code resp ≠ 202 ∧ ¬ (400 ≤ status_code resp < 600))
  ∨ (status_code resp = 202
     ∧ ∃ body : gmap string pyval,
         resp_json resp = Ret (PDict body)
         ∧ truthy (default PNone (body !! "task_id")) = false).

(** The further keyword arguments Python accepts: none is written
    twice and none names a parameter. *)
Definition keywords_accepted (extra : list (string * pyval)) : bool :=
  match first_repeated [] extra.*1,
        List.find (λ k, bool_decide (k ∈ PARAMETERS)) extra.*1 with
  | None, None => true
  | _, _ => false
  end.

(** The payload entries the explicit [content] and [files] parameters
    give rise to. *)
Definition content_entry (content : pyval) : gmap string pyval :=
  match content with
  | PNone => ∅
  | _ => {[ "content" := content ]}
  end.

Definition files_entry (prepared_files : option (list pyval)) : gmap string pyval :=
  match prepared_files with
  | Some (d :: ds) => {[ "files" := PList (d :: ds) ]}
  | _ => ∅
  end.

Definition identity_entries (user_id chat_id : pyval) : gmap string pyval :=
  <["chat_id" := chat_id]> {[ "user_id" := user_id ]}.

(** The imports with a MIME guesser that knows no type for [path], so
    that no compression is attempted for it. *)
Definition not_attempted_for (lib : imports) (path : string) : imports :=
  {| load_file_as_payload := load_file_as_payload lib;
     compress_image := compress_image lib;
     guess_type := λ p, if String.eqb p path then None else guess_type lib p;
     json_loads := json_loads lib |}.

(** The client without image compression. *)
Definition without_compression (self : DuoScienceClient) : DuoScienceClient :=
  {| base_url := base_url self;
     timeout := timeout self;
     auto_compress_images := false;
     image_max_dim := image_max_dim self;
     image_quality := image_quality self;
     convert_images_to_jpeg := convert_images_to_jpeg self |}.

(* ===================================================================== *)
(** ** Scenarios *)
(* ===================================================================== *)

Module Scenario.

(** The double quote character. *)
Definition dq : string := String (Ascii.ascii_of_nat 34) "".

(** The message texts [{"status": "running"}],
    [{"status": "completed", "result": {"response": "hi"}}], [[1]]
    and a text that is not JSON. *)
Definition TXT_RUNNING : string :=
  "{" +:+ dq +:+ "status" +:+ dq +:+ ": " +:+ dq +:+ "running" +:+ dq +:+ "}".
Definition TXT_COMPLETED : string :=
  "{" +:+ dq +:+ "status" +:+ dq +:+ ": " +:+ dq +:+ "completed" +:+ dq +:+ ", "
  +:+ dq +:+ "result" +:+ dq +:+ ": {" +:+ dq +:+ "response" +:+ dq +:+ ": "
  +:+ dq +:+ "hi" +:+ dq +:+ "}}".
Definition TXT_ARRAY : string := "[1]".
Definition TXT_GARBAGE : string := "{status".

Definition EV_RUNNING : gmap string pyval := {[ "status" := PStr "running" ]}.
Definition EV_COMPLETED : gmap string pyval :=
  <["result" := PDict {[ "response" := PStr "hi" ]}]> {[ "status" := PStr "completed" ]}.

(** [json.loads] on the four texts above; any other text is taken to be
    malformed. *)
Definition loads (data : string) : res pyval :=
  if String.eqb data TXT_RUNNING then Ret (PDict EV_RUNNING)
  else if String.eqb data TXT_COMPLETED then Ret (PDict EV_COMPLETED)
  else if String.eqb data TXT_ARRAY then Ret (PList [PInt 1])
  else Raise (Exn JSONDecodeError "Expecting property name enclosed in double quotes").

Definition descriptor (filename content_type b64 : string) : gmap string pyval :=
  <["base64" := PStr b64]>
    (<["content_type" := PStr content_type]> {[ "filename" := PStr filename ]}).

(** A loader that knows every path except [gone.txt]. *)
Definition load (path : string) : res pyval :=
  if String.eqb path "gone.txt"
  then Raise (Exn OSError "No such file or directory: 'gone.txt'")
  else Ret (PDict (descriptor path "application/octet-stream" "AAAA")).

(** A compressor that fails on [broken.png]. *)
Definition compress (path : string) (max_dim quality : Z) (jpeg : bool) : res string :=
  if String.eqb path "broken.png"
  then Raise (Exn OSError "cannot identify image file 'broken.png'")
  else Ret (path +:+ ".jpg").

Definition guess (path : string) : option string :=
  if String.eqb path "broken.png" || String.eqb path "photo.png"
  then Some "image/png"
  else None.

Definition lib : imports :=
  {| load_file_as_payload := Some load;
     compress_image := Some compress;
     guess_type := guess;
     json_loads := loads |}.

(** The defaults of [DuoScienceClient.__init__]. *)
Definition client : DuoScienceClient :=
  {| base_url := "http://127.0.0.1:8000";
     timeout := 30;
     auto_compress_images := true;
     image_max_dim := 1280;
     image_quality := 80;
     convert_images_to_jpeg := true |}.

(** [chat("u1", "c1", content="hello")] *)
Definition hello : call :=
  {| call_user_id := PStr "u1";
     call_chat_id := PStr "c1";
     call_content := PStr "hello";
     call_files := None;
     call_extra := [] |}.

Definition with_files (fs : list pyval) : call :=
  {| call_user_id := PStr "u1";
     call_chat_id := PStr "c1";
     call_content := PNone;
     call_files := Some fs;
     call_extra := [] |}.

Definition with_extra (extra : list (string * pyval)) : call :=
  {| call_user_id := PStr "u1";
     call_chat_id := PStr "c1";
     call_content := PStr "hello";
     call_files := None;
     call_extra := extra |}.

(** An answer to the POST on [http://127.0.0.1:8000/chat/]. *)
Definition response (status : Z) (reason text : string) (body : res pyval) : Response :=
  {| status_code := status; reason := reason;
     resp_url := "http://127.0.0.1:8000/chat/";
     resp_text := text; resp_json := body |}.

(** A server that answers the initiation with [r] and then pushes
    [script] on the stream of any task. *)
Definition server (r : res Response) (script : res (list sse_next)) : network :=
  {| net_post := λ _ _, r; net_sse := λ _, script |}.

Definition accepted : res Response :=
  Ret (response 202 "Accepted" "{...}" (Ret (PDict {[ "task_id" := PStr "t-1" ]}))).

Definition hello_payload : gmap string pyval :=
  <["content" := PStr "hello"]>
    (<["chat_id" := PStr "c1"]> {[ "user_id" := PStr "u1" ]}).

(** Calls with files. *)
Definition partial_descriptor : gmap string pyval := {[ "filename" := PStr "a.txt" ]}.

Definition full_descriptor : gmap string pyval :=
  <["note" := PStr "kept"]> (descriptor "b.bin" "application/pdf" "QUJD").

Definition path_then_partial : call :=
  with_files [PStr "notes.txt"; PDict partial_descriptor; PInt 7].

Definition unsupported_then_partial : call :=
  with_files [PInt 7; PDict partial_descriptor].

Definition dict_path_dict : list pyval :=
  [PDict full_descriptor; PStr "notes.txt";
   PDict (descriptor "c.txt" "text/plain" "eA==")].

(** Servers. *)
Definition ok_200 : network :=
  server (Ret (response 200 "OK" "ok" (Ret (PDict ∅)))) (Ret []).

Definition accepted_without_handle : network :=
  server (Ret (response 202 "Accepted" "{}" (Ret (PDict ∅)))) (Ret []).

Definition connection_reset : exn :=
  Exn RequestsConnectionError "Connection reset by peer".

Definition running_then_lost : network :=
  server accepted (Ret [SseEvent TXT_RUNNING; SseRaise connection_reset;
                        SseEvent TXT_COMPLETED]).

Definition keepalive_running_completed : list string :=
  [""; TXT_RUNNING; ""; TXT_COMPLETED; TXT_RUNNING].

Definition running_then_completed : network :=
  server accepted (Ret (SseEvent <$> keepalive_running_completed)).

(** Streams that go wrong: a completed event followed by a text that
    is not JSON, and a JSON array as the only message. *)
Definition completed_then_garbage : list string :=
  [""; TXT_RUNNING; TXT_COMPLETED; TXT_GARBAGE].

Definition array_only : network := server accepted (Ret [SseEvent TXT_ARRAY]).

Definition hello_task : task :=
  {| task_endpoint := "/chat/"; task_payload := hello_payload |}.

End Scenario.

(* ===================================================================== *)
(** ** The constructor *)
(* ===================================================================== *)

(** The character [/]. *)
Definition SLASH : Ascii.ascii := Ascii.ascii_of_nat 47.

(** [s.rstrip(c)] for a single character [c]: [s] without the run of
    [c] it ends with. *)
Fixpoint rstrip (c : Ascii.ascii) (s : string) : string :=
  match s with
  | EmptyString => EmptyString
  | String a rest =>
      match rstrip c rest with
      | EmptyString => if Ascii.eqb a c then EmptyString else String a EmptyString
      | String _ _ as r => String a r
      end
  end.

(** [n] times the character [c]. *)
Fixpoint repeat_char (c : Ascii.ascii) (n : nat) : string :=
  match n with
  | O => EmptyString
  | S n' => String c (repeat_char c n')
  end.

(** [DuoScienceClient.__init__]: the base URL is stored without its
    trailing slashes, the other settings as they are given. (The
    constant headers and the logger are left out.) *)
Definition __init__ (url : string) (timeout_s : Z) (auto_compress : bool)
    (max_dim quality : Z) (to_jpeg : bool) : DuoScienceClient :=
  {| base_url := rstrip SLASH url;
     timeout := timeout_s;
     auto_compress_images := auto_compress;
     image_max_dim := max_dim;
     image_quality := quality;
     convert_images_to_jpeg := to_jpeg |}.

(* ===================================================================== *)
(** ** The consumer of the module's example *)
(* ===================================================================== *)

Inductive log_level : Type := INFO | WARNING | ERROR.

(** A log call: its level, the text of the f-string before the
    interpolated value, and that value. *)
Record log_record : Type := Log {
  log_level_of : log_level;
  log_text : string;
  log_value : option pyval
}.

(** [v == s] for a string literal [s]. *)
Definition py_eq_str (v : pyval) (s : string) : bool :=
  match v with
  | PStr x => String.eqb x s
  | _ => false
  end.

(** [v.get(k, default)] *)
Definition py_get_default (v : pyval) (k : string) (dflt : pyval) : res pyval :=
  match v with
  | PDict d => Ret (default dflt (d !! k))
  | _ => py_get v k
  end.

(** The answer of a completed event:
[[
final_result = event.get("result", {})
if not final_result:
    final_result = event.get("payload", {})
... final_result.get('response') or final_result.get('content')
]] *)
Definition final_answer (event : pyval) : res pyval :=
  final_result ← py_get_default event "result" (PDict ∅);
  final_result ← (if negb (truthy final_result)
                  then py_get_default event "payload" (PDict ∅)
                  else Ret final_result);
  response ← py_get final_result "response";
  if truthy response then Ret response else py_get final_result "content".

(** The body of the [for event in chat_events] loop of the example:
    the log calls made for one event, and the exception that ends the
    program if the body raises. *)
Definition handle_event (event : pyval) : list log_record * option exn :=
  match py_get event "status" with
  | Raise e => ([], Some e)
  | Ret status =>
      if py_eq_str status "running" then
        match py_get event "message" with
        | Ret message => ([Log INFO "⏳ STATUS: " (Some message)], None)
        | Raise e => ([], Some e)
        end
      else if py_eq_str status "completed" then
        let banner := Log INFO "✅ --- TASK COMPLETED --- ✅" None in
        match final_answer event with
        | Ret answer => ([banner; Log INFO "Final Answer: " (Some answer)], None)
        | Raise e => ([banner], Some e)
        end
      else if py_eq_str status "error" || py_eq_str status "failed" then
        match py_get event "message" with
        | Ret message => ([Log ERROR "❌ ERROR: " (Some message)], None)
        | Raise e => ([], Some e)
        end
      else ([Log WARNING "Received unknown event: " (Some event)], None)
  end.



(* ===================================================================== *)
(** ** Further vocabulary *)
(* ===================================================================== *)

(** A file descriptor with the three required keys. *)
Definition conforming (v : pyval) : bool :=
  match v with
  | PDict d => bool_decide (missing_keys d = [])
  | _ => false
  end.

Definition is_dict (v : pyval) : bool :=
  match v with
  | PDict _ => true
  | _ => false
  end.

(** The non-empty messages a script delivers before its first
    exception. *)
Fixpoint script_data (script : list sse_next) : list string :=
  match script with
  | [] => []
  | SseRaise _ :: _ => []
  | SseEvent data :: rest =>
      if String.eqb data "" then script_data rest else data :: script_data rest
  end.

(* ===================================================================== *)
(** ** Markdown to PDF ([duoscience/utils.py]) *)
(* ===================================================================== *)

Module Utils.

(** The exceptions the three handlers of [convert_md_to_pdf] tell
    apart: [FileNotFoundError], the other [OSError]s ([IOError] is
    [OSError]), the other [Exception]s, and what is no [Exception]. *)
Inductive fault_class : Type :=
  | FileNotFound
  | OtherOSError
  | OtherException
  | BaseExceptionOnly.

Record fault : Type := Fault { fault_cls : fault_class; fault_msg : string }.

Inductive outcome (A : Type) : Type :=
  | Ok (a : A)
  | Fails (f : fault).
Arguments Ok {A} a.
Arguments Fails {A} f.

(** What the function asks of the file system, the libraries and the
    logger, in the order it asks. Existence tests and the pure library
    calls leave no entry. *)
Inductive entry : Type :=
  | LogInfo (text : string)
  | LogError (text : string)
  | LogException (text : string)
  | ReadText (path : string)
  | ReadBytes (path : string)
  | TempCreate
  | TempWrite (path html : string)
  | TempClose (path : string)
  | FromFile (html_path pdf_path : string)
  | Unlink (path : string).

(** The collaborators: the file system, [markdown], [base64],
    [pathlib], [tempfile], [pdfkit] and [os]. *)
Record system : Type := {
  (** [Path(p).exists()] *)
  path_exists : string → bool;
  (** [open(p, 'r', encoding='utf-8')] and [read()] *)
  read_text : string → outcome string;
  (** [open(p, 'rb')] and [read()] *)
  read_bytes : string → outcome string;
  (** [markdown.markdown(text, extensions=[...])] *)
  markdown : string → outcome string;
  (** [base64.b64encode(data).decode('utf-8')] *)
  b64encode : string → string;
  (** [Path(p).suffix] *)
  suffix : string → string;
  (** [pdfkit.configuration(wkhtmltopdf=p)] *)
  configuration : string → outcome ();
  (** [tempfile.NamedTemporaryFile(delete=False, ...)]: the name *)
  temp_create : outcome string;
  temp_write : string → string → outcome ();
  temp_close : string → outcome ();
  (** [pdfkit.from_file(html, pdf, ...)] *)
  from_file : string → string → outcome ();
  (** [os.unlink(p)] *)
  unlink : string → outcome ()
}.

(** A computation inside the [try]: the entries it leaves and its
    result. *)
Definition io (A : Type) : Type := list entry * outcome A.

#[global] Instance io_ret : MRet io := λ A a, ([], Ok a).
#[global] Instance io_bind : MBind io := λ A B f m,
  match m with
  | (tr, Ok a) => let '(tr', r) := f a in (tr ++ tr', r)
  | (tr, Fails e) => (tr, Fails e)
  end.

Definition log_info (text : string) : io () := ([LogInfo text], Ok ()).
Definition ask {A} (e : entry) (r : outcome A) : io A := ([e], r).
Definition compute {A} (r : outcome A) : io A := ([], r).

(** The double quote character and the dot. *)
Definition DQ : string := String (Ascii.ascii_of_nat 34) "".
Definition DOT : Ascii.ascii := Ascii.ascii_of_nat 46.

(** [s.lstrip(c)] for a single character. *)
Fixpoint lstrip (c : Ascii.ascii) (s : string) : string :=
  match s with
  | EmptyString => EmptyString
  | String a rest => if Ascii.eqb a c then lstrip c rest else s
  end.

(** [s.strip(c)] *)
Definition strip (c : Ascii.ascii) (s : string) : string := rstrip c (lstrip c s).

(** The page of the f-string, with its four holes. *)
Definition html_page (user_css pygments_css logo_html_element html_body : string)
    : string :=
  "
        <!DOCTYPE html>
        <html lang="
  +:+ DQ
  +:+ "en"
  +:+ DQ
  +:+ ">
        <head>
            <meta charset="
  +:+ DQ
  +:+ "UTF-8"
  +:+ DQ
  +:+ ">
            <style>
                /* --- Styles for the logo --- */
                .logo {
                    max-height: 40px; /* Adjust size as needed */
                    margin-bottom: 20px; /* Space between logo and content */
                }

                .logo + h1,
                .logo + h2,
                .logo + h3,
                .logo + p {
                    margin-top: 0;
                }

                /* --- Basic styles --- */
                body { font-family: -apple-system, BlinkMacSystemFont, "
  +:+ DQ
  +:+ "Segoe UI"
  +:+ DQ
  +:+ ", Roboto, "
  +:+ DQ
  +:+ "Helvetica Neue"
  +:+ DQ
  +:+ ", Arial, sans-serif; font-size: 11pt; line-height: 1.6; }
                @page { size: A4; margin: 25mm; }
                h1, h2, h3, h4, h5, h6 { margin-top: 1.5em; margin-bottom: 0.5em; }
                table { width: 100%; border-collapse: collapse; margin-top: 1em; table-layout: fixed; }
                th, td { border: 1px solid #ddd; padding: 8px; vertical-align: top; word-wrap: break-word; }
                th { background-color: #f2f2f2; font-weight: bold; }
                code:not(pre > code) { background-color: #f0f0f0; padding: 2px 4px; border-radius: 3px; font-size: 0.9em;}
                blockquote { border-left: 4px solid #ddd; padding-left: 1em; color: #666; margin-left: 0; }
                
                /* --- Custom user styles --- */
                "
  +:+ user_css
  +:+ "
                
                /* --- Pygments code highlighting styles --- */
                "
  +:+ pygments_css
  +:+ "
            </style>
        </head>
        <body>
            "
  +:+ logo_html_element
  +:+ "
            "
  +:+ html_body
  +:+ "
        </body>
        </html>
        ".

(** [if path and Path(path).exists(): ... read ...], for the two style
    sheets: the text read, or the empty string. *)
Definition optional_text (sys : system) (path : option string) (note : string)
    : io string :=
  match path with
  | Some p =>
      if negb (String.eqb p "") && path_exists sys p then
        _ ← log_info (note +:+ p);
        ask (ReadText p) (read_text sys p)
      else mret ""
  | None => mret ""
  end.

(** The [<img>] element of the logo, or the empty string. *)
Definition logo_element (sys : system) (logo_path : option string) : io string :=
  match logo_path with
  | Some p =>
      if negb (String.eqb p "") && path_exists sys p then
        _ ← log_info ("Embedding logo from: " +:+ p);
        data ← ask (ReadBytes p) (read_bytes sys p);
        let b64_logo := b64encode sys data in
        let mime_type := "image/" +:+ strip DOT (suffix sys p) in
        mret ("<img src=" +:+ DQ +:+ "data:" +:+ mime_type +:+ ";base64," +:+ b64_logo
              +:+ DQ +:+ " class=" +:+ DQ +:+ "logo" +:+ DQ +:+ ">")
      else mret ""
  | None => mret ""
  end.

(** Steps 1 to 3 of the [try]: read the Markdown file, convert it,
    and build the complete page with the styles and the logo. *)
Definition build_page (sys : system) (md_file_path : string)
    (css_path pygments_css_path logo_path : option string) : io string :=
  _ ← (if path_exists sys md_file_path then mret ()
       else compute (Fails (Fault FileNotFound
                              ("Исходный файл не найден: " +:+ md_file_path))));
  _ ← log_info ("Reading Markdown file from " +:+ md_file_path);
  md_content ← ask (ReadText md_file_path) (read_text sys md_file_path);
  _ ← log_info "Converting Markdown to HTML with extensions.";
  html_body ← compute (markdown sys md_content);
  user_css ← optional_text sys css_path "Reading custom CSS from ";
  pygments_css ← optional_text sys pygments_css_path "Reading Pygments CSS from ";
  logo_html_element ← logo_element sys logo_path;
  mret (html_page user_css pygments_css logo_html_element html_body).

(** The [with] block of the temporary file: write, log, and the close
    on leaving the block. When the block raises, the file is closed
    all the same and the exception of the block goes on. *)
Definition write_temp (sys : system) (tmp_html_path page : string) : io () :=
  match ask (TempWrite tmp_html_path page) (temp_write sys tmp_html_path page)
          ≫= (λ _, log_info ("HTML content written to temporary file: "
                              +:+ tmp_html_path)) with
  | (tr, Ok _) =>
      let '(tr', r) := ask (TempClose tmp_html_path) (temp_close sys tmp_html_path)
      in (tr ++ tr', r)
  | (tr, Fails f) => (tr ++ [TempClose tmp_html_path], Fails f)
  end.

(** Step 4 of the [try]: write the page to a temporary file, convert
    that file, remove it. *)
Definition write_pdf (sys : system) (page pdf_file_path wkhtmltopdf_path : string)
    : io () :=
  _ ← log_info "Configuring pdfkit with wkhtmltopdf path.";
  _ ← compute (configuration sys wkhtmltopdf_path);
  tmp_html_path ← ask TempCreate (temp_create sys);
  _ ← write_temp sys tmp_html_path page;
  _ ← log_info ("Generating PDF and saving to " +:+ pdf_file_path);
  _ ← ask (FromFile tmp_html_path pdf_file_path)
          (from_file sys tmp_html_path pdf_file_path);
  _ ← ask (Unlink tmp_html_path) (unlink sys tmp_html_path);
  log_info ("✅ File successfully saved: " +:+ pdf_file_path).

(** The body of the [try]. *)
Definition convert_body (sys : system) (md_file_path pdf_file_path : string)
    (wkhtmltopdf_path : string) (css_path pygments_css_path logo_path : option string)
    : io () :=
  page ← build_page sys md_file_path css_path pygments_css_path logo_path;
  write_pdf sys page pdf_file_path wkhtmltopdf_path.

(** An entry of steps 1 to 3: a log line or a read. *)
Definition reads_only (e : entry) : bool :=
  match e with
  | LogInfo _ | ReadText _ | ReadBytes _ => true
  | _ => false
  end.

(** The line one of the three handlers logs. *)
Definition error_line (e : entry) : bool :=
  match e with
  | LogError _ | LogException _ => true
  | _ => false
  end.

(** [convert_md_to_pdf]: the entries it leaves, and the exception it
    raises to its caller if no handler takes it. *)
Definition convert_md_to_pdf (sys : system) (md_file_path pdf_file_path : string)
    (wkhtmltopdf_path : string) (css_path pygments_css_path logo_path : option string)
    : list entry * option fault :=
  match convert_body sys md_file_path pdf_file_path wkhtmltopdf_path
          css_path pygments_css_path logo_path with
  | (tr, Ok _) => (tr, None)
  | (tr, Fails f) =>
      match fault_cls f with
      | FileNotFound => (tr ++ [LogError ("❌ Error: " +:+ fault_msg f)], None)
      | OtherOSError =>
          (tr ++ [LogError ("❌ I/O Error: " +:+ fault_msg f +:+
                            ". Make sure wkhtmltopdf is installed and the path is correct.")],
           None)
      | OtherException =>
          (tr ++ [LogException ("❌ An unexpected error occurred: " +:+ fault_msg f)],
           None)
      | BaseExceptionOnly => (tr, Some f)
      end
  end.

End Utils.

(** A machine for the scenarios of the conversion: the one file is
    [notes.md], and [wkhtmltopdf] fails. *)
Module UtilsScenario.

Definition machine : Utils.system :=
  {| Utils.path_exists := λ p, String.eqb p "notes.md";
     Utils.read_text := λ p,
       if String.eqb p "notes.md" then Utils.Ok "# Title"
       else Utils.Fails (Utils.Fault Utils.FileNotFound "No such file or directory");
     Utils.read_bytes := λ p,
       Utils.Fails (Utils.Fault Utils.FileNotFound "No such file or directory");
     Utils.markdown := λ text, Utils.Ok ("<h1>" +:+ text +:+ "</h1>");
     Utils.b64encode := λ data, data;
     Utils.suffix := λ p, ".png";
     Utils.configuration := λ p, Utils.Ok ();
     Utils.temp_create := Utils.Ok "/tmp/tmpk3.html";
     Utils.temp_write := λ p html, Utils.Ok ();
     Utils.temp_close := λ p, Utils.Ok ();
     Utils.from_file := λ html pdf,
       Utils.Fails (Utils.Fault Utils.OtherOSError "wkhtmltopdf reported an error");
     Utils.unlink := λ p, Utils.Ok () |}.

End UtilsScenario.

(* ===================================================================== *)
(** ** Sanity checks of the embedding *)
(* ===================================================================== *)

Example chat_hello_payload :
  chat Scenario.lib Scenario.client Scenario.hello
  = Ret {| task_endpoint := "/chat/"; task_payload := Scenario.hello_payload |}.
Proof. vm_compute. reflexivity. Qed.

(** An accepted task streaming a keep-alive, [running], [completed]
    and one more message yields the two events, in order. *)
Example chat_running_completed :
  invoke (chat Scenario.lib) Scenario.lib Scenario.client
    (Scenario.server Scenario.accepted
       (Ret [SseEvent ""; SseEvent Scenario.TXT_RUNNING;
             SseEvent Scenario.TXT_COMPLETED; SseEvent Scenario.TXT_RUNNING]))
    Scenario.hello
  = Streamed {| yielded := [PDict Scenario.EV_RUNNING; PDict Scenario.EV_COMPLETED];
                finish := None;
                io := [IoPost "/chat/" Scenario.hello_payload; IoStream (PStr "t-1")] |}.
Proof. vm_compute. reflexivity. Qed.

(** HTTP 500 on initiation: one error event built from the
    [HTTPError] of [raise_for_status]. *)
Example chat_http_500 :
  invoke (chat Scenario.lib) Scenario.lib Scenario.client
    (Scenario.server (Ret (Scenario.response 500 "Internal Server Error" "boom" (Ret PNone)))
       (Ret []))
    Scenario.hello
  = Streamed {| yielded :=
                  [error_event
                     "Connection Error: Failed to start task. 500 Server Error: Internal Server Error for url: http://127.0.0.1:8000/chat/"];
                finish := None;
                io := [IoPost "/chat/" Scenario.hello_payload] |}.
Proof. vm_compute. reflexivity. Qed.

(* ===================================================================== *)
(** ** The error monad *)
(* ===================================================================== *)

Lemma bind_Ret {A B} (m : res A) (f : A → res B) (b : B) :
  m ≫= f = Ret b ↔ ∃ a, m = Ret a ∧ f a = Ret b.
Proof.
  destruct m as [a|e]; simpl; split.
  - intros H. by exists a.
  - by intros (a' & [= <-] & H).
  - discriminate.
  - by intros (a' & [=] & _).
Qed.

Lemma bind_Raise {A B} (m : res A) (f : A → res B) (e : exn) :
  m ≫= f = Raise e ↔ m = Raise e ∨ ∃ a, m = Ret a ∧ f a = Raise e.
Proof.
  destruct m as [a|e']; simpl; split.
  - intros H. right. by exists a.
  - intros [[=]|(a' & [= <-] & H)]. done.
  - intros [= ->]. by left.
  - intros [[= ->]|(a' & [=] & _)]. done.
Qed.

(* ===================================================================== *)
(** ** Properties of the file normalisation *)
(* ===================================================================== *)

Section ComposerProperties.

Context (lib : imports).

(** The keys reported missing are the required keys the dict lacks. *)
Lemma elem_of_missing_keys (d : gmap string pyval) (k : string) :
  k ∈ missing_keys d ↔ k ∈ REQUIRED_KEYS ∧ d !! k = None.
Proof.
  unfold missing_keys. rewrite list_elem_of_filter, not_elem_of_dom. tauto.
Qed.

Lemma missing_keys_nil (d : gmap string pyval) :
  missing_keys d = [] ↔ ∀ k, k ∈ REQUIRED_KEYS → is_Some (d !! k).
Proof.
  split.
  - intros Hnil k Hk. destruct (d !! k) eqn:E; [by eexists|].
    assert (k ∈ missing_keys d) as Hin by by apply elem_of_missing_keys.
    rewrite Hnil in Hin. by apply elem_of_nil in Hin.
  - intros Hall. destruct (missing_keys d) as [|k ks] eqn:E; [done|].
    assert (k ∈ missing_keys d) as Hin by (rewrite E; left).
    apply elem_of_missing_keys in Hin as [Hk Hnone].
    destruct (Hall k Hk) as [v Hv]. congruence.
Qed.

(** A dict is either appended as it is or rejected. *)
Lemma prepare_item_dict (self : DuoScienceClient) (d : gmap string pyval) :
  prepare_item lib self (PDict d)
  = if bool_decide (missing_keys d = [])
    then Ret (PDict d)
    else Raise (Exn ValueError (MSG_MISSING_KEYS (missing_keys d))).
Proof.
  simpl. destruct (missing_keys d); by case_bool_decide.
Qed.

(** The loop appends one descriptor per element, in order, behind what
    was prepared before. *)
Lemma prepare_loop_Ret (self : DuoScienceClient) (fs acc out : list pyval) :
  prepare_loop lib self fs acc = Ret out
  ↔ ∃ ds, out = acc ++ ds
          ∧ Forall2 (λ item d, prepare_item lib self item = Ret d) fs ds.
Proof.
  revert acc out. induction fs as [|item rest IH]; intros acc out; simpl.
  - split.
    + intros [= <-]. exists []. by rewrite app_nil_r.
    + intros (ds & -> & Hds). apply Forall2_nil_inv_l in Hds as ->.
      by rewrite app_nil_r.
  - rewrite bind_Ret. split.
    + intros (d & Hd & Hloop). apply IH in Hloop as (ds & -> & Hds).
      exists (d :: ds). split; [by rewrite <- app_assoc | by constructor].
    + intros (ds & -> & Hds).
      apply Forall2_cons_inv_l in Hds as (d & ds' & Hd & Hds' & ->).
      exists d. split; [done|]. apply IH. exists ds'.
      split; [by rewrite <- app_assoc | done].
Qed.

(** The first element that cannot be prepared decides the exception. *)
Lemma prepare_loop_first_failure (self : DuoScienceClient)
    (pre post acc acc' : list pyval) (item : pyval) (e : exn) :
  prepare_loop lib self pre acc = Ret acc' →
  prepare_item lib self item = Raise e →
  prepare_loop lib self (pre ++ item :: post) acc = Raise e.
Proof.
  revert acc. induction pre as [|x pre IH]; intros acc; simpl.
  - intros _ ->. done.
  - intros Hpre Hitem. apply bind_Ret in Hpre as (d & -> & Hpre). simpl.
    by apply IH.
Qed.

(** A list with an element that cannot be prepared is never prepared. *)
Lemma prepare_loop_some_failure (self : DuoScienceClient)
    (fs acc : list pyval) (item : pyval) :
  item ∈ fs → raised (prepare_item lib self item) = true →
  raised (prepare_loop lib self fs acc) = true.
Proof.
  revert acc. induction fs as [|x fs IH]; intros acc Hin Hitem.
  - by apply elem_of_nil in Hin.
  - simpl. destruct (prepare_item lib self x) as [d|e] eqn:Hx; [|done]. simpl.
    apply elem_of_cons in Hin as [->|Hin]; [|by apply IH].
    rewrite Hx in Hitem. discriminate.
Qed.

Lemma prepare_files_Ret (self : DuoScienceClient) (fs prepared : list pyval) :
  _prepare_files lib self (Some fs) = Ret (Some prepared)
  ↔ fs ≠ [] ∧ (length prepared ≤ 10)%nat
    ∧ Forall2 (λ item d, prepare_item lib self item = Ret d) fs prepared.
Proof.
  unfold _prepare_files. destruct fs as [|item rest].
  - split; [discriminate | by intros [? _]].
  - rewrite bind_Ret. setoid_rewrite prepare_loop_Ret. split.
    + intros (out & (ds & -> & Hds) & Hout). simpl in Hout.
      destruct (10 <? length ds)%nat eqn:Hlen; [discriminate|].
      injection Hout as <-. apply Nat.ltb_ge in Hlen. done.
    + intros (_ & Hlen & Hds). exists prepared. split; [by exists prepared|].
      apply Nat.ltb_ge in Hlen. by rewrite Hlen.
Qed.

End ComposerProperties.

(* ===================================================================== *)
(** ** Properties of the payload *)
(* ===================================================================== *)

Section PayloadProperties.

Context (lib : imports).

Lemma first_repeated_None (seen ks : list string) :
  first_repeated seen ks = None ↔ NoDup ks ∧ ∀ k, k ∈ ks → k ∉ seen.
Proof.
  revert seen. induction ks as [|k ks IH]; intros seen; simpl.
  - split; [|done]. intros _. split; [constructor|]. by intros k ?%elem_of_nil.
  - case_bool_decide as Hk.
    + split; [discriminate|]. intros [_ Hfresh]. destruct (Hfresh k); [left|done].
    + rewrite IH, NoDup_cons. split.
      * intros [Hnd Hfresh]. split.
        -- split; [|done]. intros Hin. apply (Hfresh k Hin). left.
        -- intros k' [->|Hin]%elem_of_cons; [done|].
           intros Hseen. apply (Hfresh k' Hin). by right.
      * intros [[Hk' Hnd] Hfresh]. split; [done|].
        intros k' Hin [->|Hseen]%elem_of_cons; [done|].
        apply (Hfresh k'); [by right | done].
Qed.

(** Accepted keywords are distinct and none is a parameter name. *)
Lemma keywords_accepted_spec (extra : list (string * pyval)) :
  keywords_accepted extra = true
  ↔ NoDup extra.*1 ∧ ∀ k, k ∈ extra.*1 → k ∉ PARAMETERS.
Proof.
  unfold keywords_accepted.
  destruct (first_repeated [] extra.*1) as [k|] eqn:Hrep.
  - split; [discriminate|]. intros [Hnd _].
    assert (first_repeated [] extra.*1 = None) as Hnone; [|congruence].
    apply first_repeated_None. split; [done|]. by intros k' _ ?%elem_of_nil.
  - apply first_repeated_None in Hrep as [Hnd _].
    destruct (List.find _ extra.*1) as [k|] eqn:Hfind.
    + split; [discriminate|]. intros [_ Hfresh].
      apply List.find_some in Hfind as [Hin Hk%bool_decide_eq_true].
      destruct (Hfresh k); [by apply list_elem_of_In | done].
    + split; [|done]. intros _. split; [done|]. intros k Hin Hk.
      apply list_elem_of_In in Hin.
      apply (List.find_none _ _ Hfind) in Hin.
      by apply bool_decide_eq_false in Hin.
Qed.

Lemma bind_kwargs_Ret (method : string) (extra : list (string * pyval))
    (kwargs : gmap string pyval) :
  bind_kwargs method extra = Ret kwargs
  ↔ keywords_accepted extra = true ∧ kwargs = list_to_map extra.
Proof.
  unfold bind_kwargs, keywords_accepted.
  destruct (first_repeated [] extra.*1); [split; [discriminate | by intros [? _]]|].
  destruct (List.find _ extra.*1); [split; [discriminate | by intros [? _]]|].
  split; [by intros [= <-] | by intros [_ ->]].
Qed.

(** A keyword the binding accepts is never a parameter name, so
    [**kwargs] holds no [user_id], [chat_id], [content] or [files]. *)
Lemma bind_kwargs_no_parameter (method : string) (extra : list (string * pyval))
    (kwargs : gmap string pyval) (k : string) :
  bind_kwargs method extra = Ret kwargs → k ∈ PARAMETERS → kwargs !! k = None.
Proof.
  intros [Hacc ->]%bind_kwargs_Ret Hk.
  apply keywords_accepted_spec in Hacc as [_ Hfresh].
  apply not_elem_of_list_to_map_1. intros Hin. by apply (Hfresh k).
Qed.

Lemma bind_kwargs_lookup (method : string) (extra : list (string * pyval))
    (kwargs : gmap string pyval) (k : string) (v : pyval) :
  bind_kwargs method extra = Ret kwargs → (k, v) ∈ extra → kwargs !! k = Some v.
Proof.
  intros [Hacc ->]%bind_kwargs_Ret Hin.
  apply keywords_accepted_spec in Hacc as [Hnd _].
  by apply elem_of_list_to_map_1.
Qed.

(** The merge order of the method body, for any [kwargs]: in a union
    the leftmost map that has a key decides its value, so [files] and
    [content] are written last, then the keyword options, then the
    identity fields. *)
Lemma compose_merge_order (self : DuoScienceClient) (endpoint : string)
    (user_id chat_id content : pyval) (files : option (list pyval))
    (kwargs : gmap string pyval) (t : task) :
  compose lib self endpoint user_id chat_id content files kwargs = Ret t
  ↔ ∃ prepared_files,
      _prepare_files lib self files = Ret prepared_files
      ∧ t = {| task_endpoint := endpoint;
               task_payload := files_entry prepared_files
                               ∪ (content_entry content
                                  ∪ (kwargs ∪ identity_entries user_id chat_id)) |}.
Proof.
  unfold compose, identity_entries. rewrite bind_Ret, insert_empty.
  split; intros (pf & Hpf & Ht); exists pf; (split; [done|]).
  - injection Ht as <-. f_equal.
    destruct content, pf as [[|x xs]|]; simpl;
      by rewrite ?(left_id_L ∅ (∪)), ?insert_union_singleton_l.
  - subst t. do 2 f_equal.
    destruct content, pf as [[|x xs]|]; simpl;
      by rewrite ?(left_id_L ∅ (∪)), ?insert_union_singleton_l.
Qed.

End PayloadProperties.

(* ===================================================================== *)
(** ** The request composer *)
(* ===================================================================== *)

Section ComposerClaims.

Context (lib : imports).

Implicit Types (m : DuoScienceClient → call → res task).
Implicit Types (self : DuoScienceClient) (c : call) (t : task).

Lemma task_methods_inv m :
  m ∈ task_methods lib → ∃ method endpoint, m = task_method lib method endpoint.
Proof.
  unfold task_methods. rewrite !elem_of_cons, elem_of_nil.
  intros [->|[->|[->|[]]]]; by eexists _, _.
Qed.

Lemma files_entry_lookup_ne (pf : option (list pyval)) (k : string) :
  k ≠ "files" → files_entry pf !! k = None.
Proof.
  intros Hk. destruct pf as [[|d ds]|]; simpl; [done| |done].
  by apply lookup_singleton_ne.
Qed.

Lemma content_entry_lookup_ne (content : pyval) (k : string) :
  k ≠ "content" → content_entry content !! k = None.
Proof.
  intros Hk. destruct content; simpl; try done; by apply lookup_singleton_ne.
Qed.

(** What a task method returns: the bound keyword options, the
    prepared files and the payload they are merged into. *)
Lemma task_method_Ret m self c t :
  m ∈ task_methods lib → m self c = Ret t →
  keywords_accepted (call_extra c) = true
  ∧ ∃ prepared_files,
      _prepare_files lib self (call_files c) = Ret prepared_files
      ∧ task_payload t
        = files_entry prepared_files
          ∪ (content_entry (call_content c)
             ∪ (list_to_map (call_extra c)
                ∪ identity_entries (call_user_id c) (call_chat_id c))).
Proof.
  intros (method & endpoint & ->)%task_methods_inv. unfold task_method.
  intros (kwargs & [Hacc ->]%bind_kwargs_Ret & Hc)%bind_Ret.
  apply compose_merge_order in Hc as (pf & Hpf & ->). split; [done|].
  by exists pf.
Qed.

Lemma task_method_Raise_prepare m self c (e : exn) :
  m ∈ task_methods lib → keywords_accepted (call_extra c) = true →
  _prepare_files lib self (call_files c) = Raise e →
  m self c = Raise e.
Proof.
  intros (method & endpoint & ->)%task_methods_inv Hacc Hpf.
  unfold task_method.
  assert (bind_kwargs method (call_extra c) = Ret (list_to_map (call_extra c))) as ->
    by by apply bind_kwargs_Ret.
  simpl. unfold compose. by rewrite Hpf.
Qed.

(** A key other than [files] and [content] is looked up in the
    keyword options first and in the identity fields after. *)
Lemma payload_lookup_option (pf : option (list pyval)) (content : pyval)
    (kwargs ids : gmap string pyval) (k : string) :
  k ≠ "files" → k ≠ "content" →
  (files_entry pf ∪ (content_entry content ∪ (kwargs ∪ ids))) !! k
  = (kwargs ∪ ids) !! k.
Proof.
  intros Hf Hc.
  rewrite lookup_union_r by by apply files_entry_lookup_ne.
  by rewrite lookup_union_r by by apply content_entry_lookup_ne.
Qed.

Lemma payload_lookup_content (pf : option (list pyval)) (content : pyval)
    (rest : gmap string pyval) :
  content ≠ PNone →
  (files_entry pf ∪ (content_entry content ∪ rest)) !! "content" = Some content.
Proof.
  intros Hc. rewrite lookup_union_r by by apply files_entry_lookup_ne.
  apply lookup_union_Some_l.
  destruct content; simpl; try done; apply lookup_singleton_eq.
Qed.

(** With no keyword option named after a parameter, the identity
    fields of the payload are the identity arguments. *)
Lemma payload_lookup_identity (pf : option (list pyval))
    (content user_id chat_id : pyval) (kwargs : gmap string pyval) :
  (∀ k, k ∈ PARAMETERS → kwargs !! k = None) →
  let payload := files_entry pf
                 ∪ (content_entry content
                    ∪ (kwargs ∪ identity_entries user_id chat_id)) in
  payload !! "user_id" = Some user_id ∧ payload !! "chat_id" = Some chat_id.
Proof.
  intros Hkw payload. unfold payload. split.
  - rewrite payload_lookup_option by done.
    rewrite lookup_union_r by (apply Hkw; compute_done). done.
  - rewrite payload_lookup_option by done.
    rewrite lookup_union_r by (apply Hkw; compute_done). done.
Qed.

(** C7 (amended). For every call to chat, research or hypotheses that
    composes a payload: the payload holds the two identity fields under
    the names [user_id] and [chat_id] (there is no [session_id] field
    unless the caller passes one as a further keyword option); the
    [content] key is present exactly when the content argument is not
    None, an empty string included; and the [files] key is absent when
    no files are given. *)
Theorem C7_payload_fields m self c t :
  m ∈ task_methods lib → m self c = Ret t →
  task_payload t !! "user_id" = Some (call_user_id c)
  ∧ task_payload t !! "chat_id" = Some (call_chat_id c)
  ∧ ("session_id" ∉ (call_extra c).*1 → task_payload t !! "session_id" = None)
  ∧ (call_content c ≠ PNone → task_payload t !! "content" = Some (call_content c))
  ∧ (call_content c = PStr "" → task_payload t !! "content" = Some (PStr ""))
  ∧ (call_content c = PNone → task_payload t !! "content" = None)
  ∧ (call_files c = None ∨ call_files c = Some [] → task_payload t !! "files" = None).
Proof.
  intros Hm Ht.
  destruct (task_method_Ret m self c t Hm Ht) as (Hacc & pf & Hpf & ->).
  apply keywords_accepted_spec in Hacc as [Hnd Hfresh].
  assert (∀ k, k ∈ PARAMETERS →
            (list_to_map (call_extra c) : gmap string pyval) !! k = None) as Hkw.
  { intros k Hk. apply not_elem_of_list_to_map_1. intros Hin. by apply (Hfresh k). }
  destruct (payload_lookup_identity pf (call_content c) (call_user_id c)
              (call_chat_id c) _ Hkw) as [Hu Hc].
  split; [done|]. split; [done|]. repeat split.
  - intros Hs. rewrite payload_lookup_option by done.
    rewrite lookup_union_r by by apply not_elem_of_list_to_map_1. done.
  - apply payload_lookup_content.
  - intros Hempty. rewrite payload_lookup_content; by rewrite Hempty.
  - intros Hnone. rewrite lookup_union_r by by apply files_entry_lookup_ne.
    rewrite Hnone. simpl. rewrite (left_id_L ∅ (∪)).
    rewrite lookup_union_r by (apply Hkw; compute_done). done.
  - intros Hfiles.
    assert (pf = None) as ->.
    { destruct Hfiles as [Hf|Hf]; rewrite Hf in Hpf; simpl in Hpf; congruence. }
    simpl. rewrite (left_id_L ∅ (∪)).
    rewrite lookup_union_r by by apply content_entry_lookup_ne.
    rewrite lookup_union_r by (apply Hkw; compute_done). done.
Qed.

(** C9 (amended). The payload merge order of chat, research and
    hypotheses is fixed: the identity fields, then the further keyword
    options, then [content] and [files]. Python binds a keyword named
    after a parameter to that parameter, so no accepted call has a
    further keyword option named [user_id], [chat_id], [content] or
    [files]: the payload's identity fields are the identity arguments,
    every further option appears with its own value, and [content] and
    [files] hold the explicit parameters. *)
Theorem C9_merge_order m self c t :
  m ∈ task_methods lib → m self c = Ret t →
  (∀ k, k ∈ PARAMETERS → k ∉ (call_extra c).*1)
  ∧ (∃ prepared_files,
       _prepare_files lib self (call_files c) = Ret prepared_files
       ∧ task_payload t
         = files_entry prepared_files
           ∪ (content_entry (call_content c)
              ∪ (list_to_map (call_extra c)
                 ∪ identity_entries (call_user_id c) (call_chat_id c))))
  ∧ task_payload t !! "user_id" = Some (call_user_id c)
  ∧ task_payload t !! "chat_id" = Some (call_chat_id c)
  ∧ (∀ k v, (k, v) ∈ call_extra c → task_payload t !! k = Some v)
  ∧ (call_content c ≠ PNone → task_payload t !! "content" = Some (call_content c))
  ∧ (∀ prepared, _prepare_files lib self (call_files c) = Ret (Some prepared) →
       task_payload t !! "files" = Some (PList prepared)).
Proof.
  intros Hm Ht.
  destruct (task_method_Ret m self c t Hm Ht) as (Hacc & pf & Hpf & Hpayload).
  apply keywords_accepted_spec in Hacc as [Hnd Hfresh].
  assert (∀ k, k ∈ PARAMETERS →
            (list_to_map (call_extra c) : gmap string pyval) !! k = None) as Hkw.
  { intros k Hk. apply not_elem_of_list_to_map_1. intros Hin. by apply (Hfresh k). }
  destruct (payload_lookup_identity pf (call_content c) (call_user_id c)
              (call_chat_id c) _ Hkw) as [Hu Hc].
  rewrite <- Hpayload in Hu, Hc.
  split; [|split; [|split; [|split; [|split; [|split]]]]]; try done.
  - intros k Hk Hin. by apply (Hfresh k).
  - by exists pf.
  - intros k v Hin. rewrite Hpayload.
    assert (k ∈ (call_extra c).*1) as Hk by (apply list_elem_of_fmap; by exists (k, v)).
    assert (k ≠ "files" ∧ k ≠ "content") as [Hf Hct].
    { split; intros ->; apply (Hfresh _ Hk); compute_done. }
    rewrite payload_lookup_option by done.
    apply lookup_union_Some_l. by apply elem_of_list_to_map_1.
  - intros Hcontent. rewrite Hpayload. by apply payload_lookup_content.
  - intros prepared Hprep. rewrite Hpayload.
    assert (pf = Some prepared) as -> by congruence.
    destruct (call_files c) as [fs|] eqn:Hfs; [|discriminate].
    apply prepare_files_Ret in Hprep as (Hne & _ & Hall).
    destruct prepared as [|d ds].
    { apply Forall2_nil_inv_r in Hall. done. }
    simpl. apply lookup_union_Some_l, lookup_singleton_eq.
Qed.

(** Whatever a task method raises, it raises when it is called: the
    generator is never created and no network call is made. *)
Lemma rejected_before_network m self c (e : exn) (net : network) :
  m self c = Raise e →
  invoke m lib self net c = Rejected e
  ∧ network_calls (invoke m lib self net c) = [].
Proof. intros Hm. unfold invoke. by rewrite Hm. Qed.

(** C6 (amended). For every files argument passed to chat, research or
    hypotheses, the elements are prepared in order and the first one
    that cannot be prepared decides the fault: if it is a dict lacking
    one or more of filename, content_type, base64, composition raises
    a validation fault naming exactly the keys that dict lacks; if it
    is neither a string nor a dict, composition raises the validation
    fault for an unsupported element; and if every element is prepared
    and more than 10 descriptors result, composition raises the
    too-many-files validation fault. A files argument with such a dict
    or such an element anywhere is always refused, with the fault of
    the first element that fails. Each fault is raised by the call
    itself, before any network call. *)
Theorem C6_validation_faults m self c :
  m ∈ task_methods lib → keywords_accepted (call_extra c) = true →
  (∀ pre item post acc,
     call_files c = Some (pre ++ item :: post) →
     prepare_loop lib self pre [] = Ret acc →
     (∀ d, item = PDict d → missing_keys d ≠ [] →
        m self c = Raise (Exn ValueError (MSG_MISSING_KEYS (missing_keys d)))
        ∧ ∀ k, k ∈ missing_keys d ↔ k ∈ REQUIRED_KEYS ∧ d !! k = None)
     ∧ ((∀ path, item ≠ PStr path) → (∀ d, item ≠ PDict d) →
        m self c = Raise (Exn ValueError MSG_BAD_ITEM)))
  ∧ (∀ fs prepared,
       call_files c = Some fs →
       prepare_loop lib self fs [] = Ret prepared →
       (10 < length prepared)%nat →
       m self c = Raise (Exn ValueError MSG_TOO_MANY))
  ∧ (∀ fs item,
       call_files c = Some fs → item ∈ fs →
       match item with
       | PStr _ => False
       | PDict d => missing_keys d ≠ []
       | _ => True
       end →
       ∃ e, m self c = Raise e)
  ∧ (∀ e net, m self c = Raise e →
       invoke m lib self net c = Rejected e
       ∧ network_calls (invoke m lib self net c) = []).
Proof.
  intros Hm Hacc. split; [|split; [|split]].
  - intros pre item post acc Hfiles Hpre.
    assert (∀ e, prepare_item lib self item = Raise e → m self c = Raise e) as Hraise.
    { intros e He. apply task_method_Raise_prepare; [done..|].
      rewrite Hfiles. unfold _prepare_files.
      rewrite (prepare_loop_first_failure lib self pre post [] acc item e Hpre He).
      by destruct pre. }
    split.
    + intros d -> Hmissing. split; [|apply elem_of_missing_keys].
      apply Hraise. rewrite prepare_item_dict. by rewrite bool_decide_eq_false_2.
    + intros Hstr Hdict. apply Hraise.
      destruct item; simpl; try done; [by destruct (Hstr s) | by destruct (Hdict d)].
  - intros fs prepared Hfiles Hloop Hlen.
    apply task_method_Raise_prepare; [done..|].
    rewrite Hfiles. unfold _prepare_files. destruct fs as [|item rest].
    { injection Hloop as <-. simpl in Hlen. lia. }
    rewrite Hloop. simpl. apply Nat.ltb_lt in Hlen. by rewrite Hlen.
  - intros fs item Hfiles Hin Hbad.
    assert (raised (prepare_item lib self item) = true) as Hitem.
    { destruct item; try done. rewrite prepare_item_dict.
      by rewrite bool_decide_eq_false_2. }
    pose proof (prepare_loop_some_failure lib self fs [] item Hin Hitem) as Hloop.
    destruct (prepare_loop lib self fs []) as [prepared|e] eqn:Heq; [done|].
    exists e. apply task_method_Raise_prepare; [done..|].
    rewrite Hfiles. unfold _prepare_files. rewrite Heq.
    destruct fs; [by apply elem_of_nil in Hin | done].
  - intros e net. apply rejected_before_network.
Qed.

(** When the compressor fails on [path] with an [Exception], every
    path is handed to the loader as if no compression had been
    attempted for [path]. *)
Lemma path_to_use_failure self (path : string)
    (compress : string → Z → Z → bool → res string) (ce : exn) (p : string) :
  compress_image lib = Some compress →
  compress path (image_max_dim self) (image_quality self)
           (convert_images_to_jpeg self) = Raise ce →
  is_Exception ce = true →
  path_to_use lib self p = path_to_use (not_attempted_for lib path) self p.
Proof.
  intros Hcompress Hfail Hexc. unfold path_to_use. simpl.
  destruct (auto_compress_images self); [|done].
  destruct (String.eqb p path) eqn:Hp; [|done].
  apply String.eqb_eq in Hp as ->. simpl.
  destruct (String.prefix "image/" (default "" (guess_type lib path))); [|done].
  by rewrite Hcompress, Hfail, Hexc.
Qed.

Lemma prepare_loop_failure self (path : string)
    (compress : string → Z → Z → bool → res string) (ce : exn)
    (fs acc : list pyval) :
  compress_image lib = Some compress →
  compress path (image_max_dim self) (image_quality self)
           (convert_images_to_jpeg self) = Raise ce →
  is_Exception ce = true →
  prepare_loop lib self fs acc = prepare_loop (not_attempted_for lib path) self fs acc.
Proof.
  intros Hcompress Hfail Hexc. revert acc.
  induction fs as [|item rest IH]; intros acc; [done|]. simpl.
  assert (prepare_item lib self item
          = prepare_item (not_attempted_for lib path) self item) as <-.
  { destruct item as [| | | |p| |d]; try done. simpl.
    destruct (load_file_as_payload lib) as [load|]; [|done].
    by rewrite (path_to_use_failure self path compress ce p). }
  destruct (prepare_item lib self item) as [d|e]; simpl; [apply IH | done].
Qed.

(** C8. For a path element whose guessed MIME type starts with
    [image/], with auto-compression enabled: when [compress_image]
    fails (it raises an [Exception], which is what the handler of the
    attempt catches), the request is not aborted. The original path is
    handed to the loader, whose descriptor takes the element's place in
    the prepared list and in the [files] field of the payload of chat,
    research and hypotheses; and [_prepare_files] and the three methods
    give, for any files and any call, what they give when no
    compression is attempted for that path. *)
Theorem C8_compression_failure_tolerated self (path mime : string)
    (compress : string → Z → Z → bool → res string) (ce : exn) :
  auto_compress_images self = true →
  guess_type lib path = Some mime →
  String.prefix "image/" mime = true →
  compress_image lib = Some compress →
  compress path (image_max_dim self) (image_quality self)
           (convert_images_to_jpeg self) = Raise ce →
  is_Exception ce = true →
  path_to_use lib self path = Ret path
  ∧ prepare_item lib self (PStr path)
    = prepare_item lib (without_compression self) (PStr path)
  ∧ (∀ load, load_file_as_payload lib = Some load →
       prepare_item lib self (PStr path) = load path)
  ∧ (∀ rest acc,
       prepare_loop lib self (PStr path :: rest) acc
       = d ← prepare_item lib (without_compression self) (PStr path);
         prepare_loop lib self rest (acc ++ [d]))
  ∧ (∀ load pre post ds d ds',
       load_file_as_payload lib = Some load →
       Forall2 (λ item x, prepare_item lib self item = Ret x) pre ds →
       load path = Ret d →
       Forall2 (λ item x, prepare_item lib self item = Ret x) post ds' →
       (length (ds ++ d :: ds') ≤ 10)%nat →
       _prepare_files lib self (Some (pre ++ PStr path :: post))
       = Ret (Some (ds ++ d :: ds'))
       ∧ ∀ m c, m ∈ task_methods lib →
           keywords_accepted (call_extra c) = true →
           call_files c = Some (pre ++ PStr path :: post) →
           ∃ t, m self c = Ret t
                ∧ task_payload t !! "files" = Some (PList (ds ++ d :: ds')))
  ∧ (∀ files, _prepare_files lib self files
              = _prepare_files (not_attempted_for lib path) self files)
  ∧ (∀ c, chat lib self c = chat (not_attempted_for lib path) self c
          ∧ research lib self c = research (not_attempted_for lib path) self c
          ∧ hypotheses lib self c = hypotheses (not_attempted_for lib path) self c).
Proof.
  intros Hauto Hguess Himage Hcompress Hfail Hexc.
  assert (path_to_use lib self path = Ret path) as Hpath.
  { unfold path_to_use. rewrite Hauto, Hguess. simpl. rewrite Himage, Hcompress.
    by rewrite Hfail, Hexc. }
  assert (prepare_item lib self (PStr path)
          = prepare_item lib (without_compression self) (PStr path)) as Hitem.
  { simpl. destruct (load_file_as_payload lib); [|done]. by rewrite Hpath. }
  assert (∀ files, _prepare_files lib self files
                   = _prepare_files (not_attempted_for lib path) self files) as Hfiles.
  { intros [[|item rest]|]; [done| |done]. unfold _prepare_files.
    by rewrite (prepare_loop_failure self path compress ce (item :: rest) []). }
  assert (∀ method endpoint c,
            task_method lib method endpoint self c
            = task_method (not_attempted_for lib path) method endpoint self c) as Hmethod.
  { intros method endpoint c. unfold task_method, compose.
    destruct (bind_kwargs method (call_extra c)) as [kwargs|e]; simpl; [|done].
    by rewrite Hfiles. }
  split; [done|]. split; [done|]. split; [|split; [|split; [|split]]].
  - intros load Hload. simpl. by rewrite Hload, Hpath.
  - intros rest acc. change (prepare_loop lib self (PStr path :: rest) acc)
      with (d ← prepare_item lib self (PStr path);
            prepare_loop lib self rest (acc ++ [d])).
    by rewrite Hitem.
  - intros load pre post ds d ds' Hload Hpre Hd Hpost Hlen.
    assert (_prepare_files lib self (Some (pre ++ PStr path :: post))
            = Ret (Some (ds ++ d :: ds'))) as Hprepared.
    { apply prepare_files_Ret. split; [by destruct pre|]. split; [done|].
      apply Forall2_app; [done|]. constructor; [|done].
      simpl. by rewrite Hload, Hpath. }
    split; [done|].
    intros m c (method & endpoint & ->)%task_methods_inv Hacc Hcall.
    unfold task_method.
    assert (bind_kwargs method (call_extra c) = Ret (list_to_map (call_extra c))) as ->
      by by apply bind_kwargs_Ret.
    simpl. eexists. split.
    + apply compose_merge_order. eexists. split; [by rewrite Hcall|done].
    + simpl. apply lookup_union_Some_l. destruct ds; apply lookup_singleton_eq.
  - done.
  - intros c. unfold chat, research, hypotheses. by rewrite !Hmethod.
Qed.

(** C10. When the files are prepared, the prepared list has one
    descriptor per element, at the element's own position, and a dict
    element stands in it unchanged: it has the three required keys and
    is appended as it is, with every key it came with. *)
Theorem C10_dict_passthrough self (fs prepared : list pyval) :
  _prepare_files lib self (Some fs) = Ret (Some prepared) →
  length prepared = length fs
  ∧ (∀ (i : nat) item, fs !! i = Some item →
       ∃ d, prepared !! i = Some d ∧ prepare_item lib self item = Ret d)
  ∧ (∀ (i : nat) (d : gmap string pyval), fs !! i = Some (PDict d) →
       prepared !! i = Some (PDict d)
       ∧ ∀ k, k ∈ REQUIRED_KEYS → is_Some (d !! k)).
Proof.
  intros (_ & _ & Hall)%prepare_files_Ret. split; [|split].
  - symmetry. by eapply Forall2_length.
  - intros i item Hi.
    destruct (Forall2_lookup_l _ _ _ _ _ Hall Hi) as (d & Hd & Hprep). by exists d.
  - intros i d Hi.
    destruct (Forall2_lookup_l _ _ _ _ _ Hall Hi) as (d' & Hd' & Hprep).
    rewrite prepare_item_dict in Hprep. case_bool_decide as Hmissing; [|done].
    injection Hprep as <-. split; [done|]. by apply missing_keys_nil.
Qed.

End ComposerClaims.

(* ===================================================================== *)
(** ** Properties of the stream loop *)
(* ===================================================================== *)

Section StreamProperties.

Context (lib : imports).

Implicit Types (script pre post : list sse_next) (ys : list pyval).

Local Abbreviation nonterminal := (λ ev : pyval, is_terminal_event ev = false).

Lemma error_event_terminal (message : string) :
  is_terminal_event (error_event message) = true.
Proof. done. Qed.

(** A part of the stream that is read to its end without a terminal
    event is followed by the rest of the stream. *)
Lemma sse_loop_app pre post ys :
  sse_loop lib pre = (ys, Exhausted) →
  sse_loop lib (pre ++ post)
  = (ys ++ (sse_loop lib post).1, (sse_loop lib post).2).
Proof.
  revert ys. induction pre as [|[data|e] pre IH]; intros ys; simpl.
  - intros [= <-]. by destruct (sse_loop lib post).
  - destruct (String.eqb data ""); [apply IH|].
    destruct (json_loads lib data) as [d|e]; [|discriminate].
    destruct (py_get d "status") as [status|e]; [|discriminate].
    destruct (is_terminal_status status); [discriminate|].
    destruct (sse_loop lib pre) as [zs r] eqn:Hpre.
    intros [= <- ->]. by rewrite (IH zs eq_refl).
  - discriminate.
Qed.

(** Every event the loop yields is tested for a terminal status, and
    the loop goes on only after one that has none: a terminal event is
    the last one yielded, and the loop is left right after it. *)
Lemma sse_loop_terminal script :
  match (sse_loop lib script).2 with
  | Broke => ends_terminal (sse_loop lib script).1
  | _ => Forall nonterminal (sse_loop lib script).1
  end.
Proof.
  induction script as [|[data|e] script IH]; simpl; [done| |done].
  destruct (String.eqb data ""); [done|].
  destruct (json_loads lib data) as [d|e]; simpl; [|done].
  destruct (py_get d "status") as [status|e] eqn:Hget; simpl.
  - destruct (is_terminal_status status) eqn:Hterm; simpl.
    + exists [], d. unfold is_terminal_event. by rewrite Hget.
    + assert (is_terminal_event d = false) as Hd
        by (unfold is_terminal_event; by rewrite Hget).
      destruct (sse_loop lib script) as [zs r]; simpl in *.
      destruct r; [by constructor| |by constructor].
      destruct IH as (front & ev & -> & Hev & Hfront).
      exists (d :: front), ev. split; [done|]. split; [done|]. by constructor.
  - constructor; [|done]. unfold is_terminal_event. by rewrite Hget.
Qed.

Lemma through_terminal_stops (evs front back : list pyval) (ev : pyval) :
  through_terminal evs = front ++ ev :: back →
  is_terminal_event ev = true → back = [].
Proof.
  revert front. induction evs as [|x evs IH]; intros front; simpl.
  - by destruct front.
  - destruct (is_terminal_event x) eqn:Hx.
    + destruct front as [|y front]; simpl; [by intros [= _ <-]|].
      intros [= _ Hnil]. by destruct front.
    + destruct front as [|y front]; simpl.
      * intros [= <- _] Hev. congruence.
      * intros [= _ Hrest]. by eapply IH.
Qed.

(** Behind events without a terminal status, one more event is the
    only place for a terminal one. *)
Lemma terminal_only_last ys (y : pyval) (front back : list pyval) (ev : pyval) :
  Forall nonterminal ys →
  ys ++ [y] = front ++ ev :: back →
  is_terminal_event ev = true → back = [].
Proof.
  intros Hys Heq Hev. destruct back as [|b back _] using rev_ind; [done|].
  rewrite app_comm_cons, app_assoc in Heq. apply app_inj_tail in Heq as [-> _].
  apply Forall_app in Hys as [_ Hys]. apply Forall_cons in Hys as [Hnon _].
  congruence.
Qed.

Lemma nonterminal_no_terminal ys (front back : list pyval) (ev : pyval) :
  Forall nonterminal ys →
  ys = front ++ ev :: back →
  is_terminal_event ev = true → back = [].
Proof.
  intros Hys -> Hev.
  apply Forall_app in Hys as [_ Hys]. apply Forall_cons in Hys as [Hnon _].
  congruence.
Qed.

Lemma ends_terminal_last ys (front back : list pyval) (ev : pyval) :
  ends_terminal ys →
  ys = front ++ ev :: back →
  is_terminal_event ev = true → back = [].
Proof.
  intros (zs & z & -> & _ & Hzs). by apply terminal_only_last.
Qed.

(** Keep-alives leave no trace in the loop. *)
Lemma sse_loop_keepalives (msgs : list string) :
  sse_loop lib (SseEvent <$> msgs)
  = sse_loop lib (SseEvent <$> filter (λ data, data ≠ "") msgs).
Proof.
  induction msgs as [|data msgs IH]; [done|].
  rewrite filter_cons. destruct (decide (data ≠ "")) as [Hne|Heq].
  - rewrite !fmap_cons. cbn [sse_loop].
    apply String.eqb_neq in Hne. by rewrite Hne, IH.
  - apply dec_stable in Heq as ->. rewrite fmap_cons. cbn [sse_loop]. apply IH.
Qed.

(** A stream of well-formed messages: the loop yields the decoded
    objects up to the first terminal one, and does not fault. *)
Lemma sse_loop_objects (msgs : list string) (evs : list (gmap string pyval)) :
  Forall (λ data, data ≠ "") msgs →
  Forall2 (λ data ev, json_loads lib data = Ret (PDict ev)) msgs evs →
  (sse_loop lib (SseEvent <$> msgs)).1 = through_terminal (PDict <$> evs)
  ∧ ∀ e, (sse_loop lib (SseEvent <$> msgs)).2 ≠ Faulted e.
Proof.
  intros Hne Hall. induction Hall as [|data ev ms evs Hdata _ IH]; [done|].
  apply Forall_cons in Hne as [Hdata_ne Hne]. destruct (IH Hne) as [IH1 IH2].
  rewrite !fmap_cons. cbn [sse_loop through_terminal].
  apply String.eqb_neq in Hdata_ne. rewrite Hdata_ne, Hdata.
  unfold is_terminal_event. cbn [py_get].
  destruct (is_terminal_status (default PNone (ev !! "status"))); [done|].
  destruct (sse_loop lib (SseEvent <$> ms)) as [zs r]; simpl in *.
  split; [by rewrite IH1 | done].
Qed.

Lemma sse_loop_messages (msgs : list string) (evs : list (gmap string pyval)) :
  Forall2 (λ data ev, json_loads lib data = Ret (PDict ev))
          (filter (λ data, data ≠ "") msgs) evs →
  (sse_loop lib (SseEvent <$> msgs)).1 = through_terminal (PDict <$> evs)
  ∧ ∀ e, (sse_loop lib (SseEvent <$> msgs)).2 ≠ Faulted e.
Proof.
  rewrite sse_loop_keepalives. apply sse_loop_objects.
  apply Forall_forall. by intros data [Hne _]%list_elem_of_filter.
Qed.

(* ===================================================================== *)
(** ** The task initiator and the event stream consumer *)
(* ===================================================================== *)

Implicit Types (self : DuoScienceClient) (net : network).
Implicit Types (endpoint : string) (payload : gmap string pyval).

(** After a successful initiation the generator is the stream loop,
    with one error event more when the loop faults. *)
Lemma stream_task_streaming self net endpoint payload (task_id : pyval) ys
    (r : loop_end) :
  initiate self net endpoint payload = Ret task_id →
  stream_body lib net task_id = (ys, r) →
  _stream_task lib self net endpoint payload
  = let io := [IoPost endpoint payload; IoStream task_id] in
    match r with
    | Faulted e =>
        if is_Exception e
        then {| yielded := ys ++ [error_event (MSG_STREAM_LOST e)];
                finish := None; io := io |}
        else {| yielded := ys; finish := Some e; io := io |}
    | _ => {| yielded := ys; finish := None; io := io |}
    end.
Proof.
  intros Hinit Hbody. unfold _stream_task. rewrite Hinit, Hbody. by destruct r.
Qed.

(** An initiation that fails with an exception of [requests] gives
    the single error event; any other exception leaves the generator. *)
Lemma stream_task_initiation_failed self net endpoint payload (e : exn) :
  initiate self net endpoint payload = Raise e →
  _stream_task lib self net endpoint payload
  = if is_RequestException e
    then {| yielded := [error_event (MSG_START_FAILED e)];
            finish := None; io := [IoPost endpoint payload] |}
    else {| yielded := []; finish := Some e; io := [IoPost endpoint payload] |}.
Proof. intros Hinit. unfold _stream_task. by rewrite Hinit. Qed.

(** A 4xx or 5xx answer is turned into an [HTTPError] by
    [raise_for_status], which the first handler catches. *)
Lemma http_error_one_event self net endpoint payload (resp : Response) :
  net_post net endpoint payload = Ret resp →
  400 ≤ status_code resp < 600 →
  ∃ e, raise_for_status resp = Raise e
       ∧ exn_cls e = HTTPError
       ∧ _stream_task lib self net endpoint payload
         = {| yielded := [error_event (MSG_START_FAILED e)];
              finish := None; io := [IoPost endpoint payload] |}.
Proof.
  intros Hpost Hstatus.
  assert (∃ e, raise_for_status resp = Raise e
               ∧ exn_cls e = HTTPError) as (e & He & Hcls).
  { unfold raise_for_status.
    destruct ((400 <=? status_code resp) && (status_code resp <? 500)) eqn:H4;
      [by eexists|].
    destruct ((500 <=? status_code resp) && (status_code resp <? 600)) eqn:H5;
      [by eexists|].
    apply andb_false_iff in H4, H5. lia. }
  exists e. split; [done|]. split; [done|].
  rewrite (stream_task_initiation_failed self net endpoint payload e).
  - unfold is_RequestException. by rewrite Hcls.
  - unfold initiate. rewrite Hpost. simpl. by rewrite He.
Qed.

(** Well-formed messages without a terminal status are yielded one
    for one, and the loop goes on behind them. *)
Lemma sse_loop_objects_nonterminal (pre post : list string)
    (evs : list (gmap string pyval)) :
  Forall (λ data, data ≠ "") pre →
  Forall2 (λ data ev, json_loads lib data = Ret (PDict ev)) pre evs →
  Forall nonterminal (PDict <$> evs) →
  sse_loop lib (SseEvent <$> (pre ++ post))
  = ((PDict <$> evs) ++ (sse_loop lib (SseEvent <$> post)).1,
     (sse_loop lib (SseEvent <$> post)).2).
Proof.
  intros Hne Hall. induction Hall as [|data ev ms evs Hdata _ IH]; intros Hnon.
  - simpl. by destruct (sse_loop lib (SseEvent <$> post)).
  - apply Forall_cons in Hne as [Hdata_ne Hne].
    rewrite fmap_cons in Hnon. apply Forall_cons in Hnon as [Hev Hnon].
    rewrite <- app_comm_cons, !fmap_cons. cbn [sse_loop].
    apply String.eqb_neq in Hdata_ne. rewrite Hdata_ne, Hdata.
    unfold is_terminal_event in Hev. cbn [py_get] in *. rewrite Hev.
    by rewrite (IH Hne Hnon).
Qed.

(** Well-formed messages with a terminal status among them: the loop
    breaks on the first such message and reads nothing behind it. *)
Lemma sse_loop_objects_terminal (pre post : list string)
    (evs : list (gmap string pyval)) :
  Forall (λ data, data ≠ "") pre →
  Forall2 (λ data ev, json_loads lib data = Ret (PDict ev)) pre evs →
  Exists (λ ev, is_terminal_event (PDict ev) = true) evs →
  sse_loop lib (SseEvent <$> (pre ++ post))
  = (through_terminal (PDict <$> evs), Broke).
Proof.
  intros Hne Hall. induction Hall as [|data ev ms evs Hdata _ IH]; intros Hex.
  - by apply Exists_nil in Hex.
  - apply Forall_cons in Hne as [Hdata_ne Hne].
    rewrite <- app_comm_cons, !fmap_cons. cbn [sse_loop through_terminal].
    apply String.eqb_neq in Hdata_ne. rewrite Hdata_ne, Hdata.
    unfold is_terminal_event in *. cbn [py_get] in *.
    destruct (is_terminal_status (default PNone (ev !! "status"))) eqn:Hev; [done|].
    apply Exists_cons in Hex as [Hhead|Htail]; [congruence|].
    by rewrite (IH Hne Htail).
Qed.

(** The messages in front of a split of the non-empty ones are not
    empty. *)
Lemma filter_prefix_nonempty (msgs pre post : list string) :
  filter (λ data, data ≠ "") msgs = pre ++ post →
  Forall (λ data, data ≠ "") pre.
Proof.
  intros Hsplit. apply Forall_forall. intros data Hin.
  assert (data ∈ filter (λ data, data ≠ "") msgs) as Hmem
    by (rewrite Hsplit; apply elem_of_app; by left).
  by apply list_elem_of_filter in Hmem as [Hne _].
Qed.

(** C5 (amended). For every sequence of messages pushed on the stream
    of an accepted task: when every non-empty message up to and
    including the first one with a terminal status (or every non-empty
    message, if there is none) decodes to a JSON object, the events
    yielded are exactly the decoded objects of the non-empty messages,
    in arrival order, up to and including the first one whose status
    is completed, error or failed. A non-empty message in front of any
    terminal one that does not decode, or decodes to a value that is
    not an object, ends the sequence: the value decoded, if any, is
    yielded, and then the one synthetic error event. Whatever the
    messages are, empty ones leave no trace (the loop runs as on the
    stream without them) and no event is yielded after an event with a
    terminal status. *)
Theorem C5_events_in_arrival_order self net endpoint payload (task_id : pyval)
    (msgs : list string) :
  initiate self net endpoint payload = Ret task_id →
  net_sse net task_id = Ret (SseEvent <$> msgs) →
  (∀ (pre post : list string) (evs : list (gmap string pyval)),
     filter (λ data, data ≠ "") msgs = pre ++ post →
     Forall2 (λ data ev, json_loads lib data = Ret (PDict ev)) pre evs →
     post = [] ∨ Exists (λ ev, is_terminal_event (PDict ev) = true) evs →
     yielded (_stream_task lib self net endpoint payload)
     = through_terminal (PDict <$> evs)
     ∧ finish (_stream_task lib self net endpoint payload) = None)
  ∧ (∀ (pre post : list string) (evs : list (gmap string pyval)) (data : string),
       filter (λ data, data ≠ "") msgs = pre ++ data :: post →
       Forall2 (λ data ev, json_loads lib data = Ret (PDict ev)) pre evs →
       Forall (λ ev, is_terminal_event ev = false) (PDict <$> evs) →
       (∀ e, json_loads lib data = Raise e → is_Exception e = true →
          yielded (_stream_task lib self net endpoint payload)
          = (PDict <$> evs) ++ [error_event (MSG_STREAM_LOST e)]
          ∧ finish (_stream_task lib self net endpoint payload) = None)
       ∧ (∀ d, json_loads lib data = Ret d → is_dict d = false →
            yielded (_stream_task lib self net endpoint payload)
            = (PDict <$> evs)
              ++ [d; error_event
                       (MSG_STREAM_LOST
                          (Exn AttributeError
                             ("'" +:+ type_name d
                              +:+ "' object has no attribute 'get'")))]
            ∧ finish (_stream_task lib self net endpoint payload) = None))
  ∧ sse_loop lib (SseEvent <$> msgs)
    = sse_loop lib (SseEvent <$> filter (λ data, data ≠ "") msgs)
  ∧ (∀ front ev back,
       yielded (_stream_task lib self net endpoint payload) = front ++ ev :: back →
       is_terminal_event ev = true → back = []).
Proof.
  intros Hinit Hsse.
  pose proof (sse_loop_terminal (SseEvent <$> msgs)) as Hterm.
  pose proof (sse_loop_keepalives msgs) as Hkeep.
  destruct (sse_loop lib (SseEvent <$> msgs)) as [ys r] eqn:Hloop.
  assert (stream_body lib net task_id = (ys, r)) as Hbody
    by (unfold stream_body; by rewrite Hsse).
  rewrite (stream_task_streaming self net endpoint payload task_id ys r Hinit Hbody).
  split; [|split; [|split]].
  - intros pre post evs Hsplit Hall Hcase.
    pose proof (filter_prefix_nonempty msgs pre post Hsplit) as Hne.
    rewrite Hsplit in Hkeep. destruct Hcase as [->|Hex].
    + rewrite app_nil_r in Hkeep.
      destruct (sse_loop_objects pre evs Hne Hall) as [Hys Hend].
      rewrite <- Hkeep in Hys, Hend. simpl in *.
      by destruct r as [| |e]; [| |destruct (Hend e)].
    + rewrite (sse_loop_objects_terminal pre post evs Hne Hall Hex) in Hkeep.
      by injection Hkeep as -> ->.
  - intros pre post evs data Hsplit Hall Hnon.
    pose proof (filter_prefix_nonempty msgs pre (data :: post) Hsplit) as Hne.
    assert (data ≠ "") as Hdata_ne.
    { assert (data ∈ filter (λ data, data ≠ "") msgs) as Hmem
        by (rewrite Hsplit; apply elem_of_app; right; left).
      by apply list_elem_of_filter in Hmem as [? _]. }
    apply String.eqb_neq in Hdata_ne.
    rewrite Hsplit in Hkeep.
    rewrite (sse_loop_objects_nonterminal pre (data :: post) evs Hne Hall Hnon) in Hkeep.
    rewrite fmap_cons in Hkeep. cbn [sse_loop] in Hkeep. rewrite Hdata_ne in Hkeep.
    split.
    + intros e Hdata Hexc. rewrite Hdata in Hkeep. simpl in Hkeep.
      injection Hkeep as -> ->. cbv zeta. rewrite Hexc. simpl.
      by rewrite app_nil_r.
    + intros d Hdata Hdict. rewrite Hdata in Hkeep.
      destruct d as [| | | | | |m]; try discriminate; simpl in Hkeep;
        injection Hkeep as -> ->; cbv zeta; simpl; by rewrite <- app_assoc.
  - done.
  - intros front ev back. simpl in *. destruct r as [| |e]; simpl.
    + by apply nonterminal_no_terminal.
    + by apply ends_terminal_last.
    + destruct (is_Exception e); simpl;
        [by apply terminal_only_last | by apply nonterminal_no_terminal].
Qed.


(** How the initiation fails when the answer is not an acceptance:
    the builtin [ConnectionError] raised for a status below 400 other
    than 202, and for an acceptance without a task handle. *)
Lemma initiate_not_accepted self net endpoint payload (resp : Response) :
  net_post net endpoint payload = Ret resp →
  status_code resp ≠ 202 → ¬ (400 ≤ status_code resp < 600) →
  initiate self net endpoint payload
  = Raise (Exn ConnectionError (MSG_NOT_ACCEPTED resp)).
Proof.
  intros Hpost H202 Hrange. unfold initiate, raise_for_status. rewrite Hpost. simpl.
  destruct ((400 <=? status_code resp) && (status_code resp <? 500)) eqn:H4.
  { apply andb_true_iff in H4. lia. }
  destruct ((500 <=? status_code resp) && (status_code resp <? 600)) eqn:H5.
  { apply andb_true_iff in H5. lia. }
  simpl. apply Z.eqb_neq in H202. by rewrite H202.
Qed.

Lemma initiate_no_task_id self net endpoint payload (resp : Response)
    (body : gmap string pyval) :
  net_post net endpoint payload = Ret resp →
  status_code resp = 202 →
  resp_json resp = Ret (PDict body) →
  truthy (default PNone (body !! "task_id")) = false →
  initiate self net endpoint payload = Raise (Exn ConnectionError MSG_NO_TASK_ID).
Proof.
  intros Hpost H202 Hjson Hfalsy. unfold initiate, raise_for_status.
  rewrite Hpost. simpl. rewrite H202. simpl. rewrite Hjson. simpl.
  by rewrite Hfalsy.
Qed.

(** C2 (what the code does). When the initiation POST is answered with
    a status that is neither 202 nor a 4xx or 5xx code (200 for
    one), the builtin [ConnectionError] carrying the status code and
    the body is raised inside the first [try], whose handler catches
    [requests.exceptions.RequestException] only: the generator yields
    nothing and raises that exception to the caller. No stream is
    opened. *)
Theorem C2_unaccepted_status_is_raised self net endpoint payload (resp : Response) :
  net_post net endpoint payload = Ret resp →
  status_code resp ≠ 202 → ¬ (400 ≤ status_code resp < 600) →
  _stream_task lib self net endpoint payload
  = {| yielded := [];
       finish := Some (Exn ConnectionError (MSG_NOT_ACCEPTED resp));
       io := [IoPost endpoint payload] |}.
Proof.
  intros Hpost H202 Hrange.
  by rewrite (stream_task_initiation_failed self net endpoint payload _
                (initiate_not_accepted self net endpoint payload resp Hpost H202 Hrange)).
Qed.

(** C3 (what the code does). When the initiation POST is answered with
    202 and a JSON object without a non-empty [task_id], the builtin
    [ConnectionError] is raised inside the first [try], whose handler
    catches [requests.exceptions.RequestException] only: the generator
    yields nothing and raises that exception to the caller. No stream
    is opened. *)
Theorem C3_missing_task_id_is_raised self net endpoint payload (resp : Response)
    (body : gmap string pyval) :
  net_post net endpoint payload = Ret resp →
  status_code resp = 202 →
  resp_json resp = Ret (PDict body) →
  truthy (default PNone (body !! "task_id")) = false →
  _stream_task lib self net endpoint payload
  = {| yielded := [];
       finish := Some (Exn ConnectionError MSG_NO_TASK_ID);
       io := [IoPost endpoint payload] |}.
Proof.
  intros Hpost H202 Hjson Hfalsy.
  by rewrite (stream_task_initiation_failed self net endpoint payload _
                (initiate_no_task_id self net endpoint payload resp body
                   Hpost H202 Hjson Hfalsy)).
Qed.

(** C1 (what the code does). An invocation of chat, research or
    hypotheses that composes its payload returns the generator; when
    the initiation POST is then answered with a status that is neither
    202 nor a 4xx or 5xx code, or with 202 and a JSON object without a
    truthy [task_id], the builtin [ConnectionError] raised in the
    first [try] passes its handler, which catches
    [requests.exceptions.RequestException] only. The generator yields
    no event, so no terminal one, and raises that exception to the
    caller: a failure after validation that is no yielded event. *)
Theorem C1_unstarted_task_raises
    (m : DuoScienceClient → call → res task) self net (c : call) (t : task)
    (resp : Response) :
  m ∈ task_methods lib → m self c = Ret t →
  net_post net (task_endpoint t) (task_payload t) = Ret resp →
  answer_starts_no_task resp →
  ∃ e, invoke m lib self net c
       = Streamed {| yielded := []; finish := Some e;
                     io := [IoPost (task_endpoint t) (task_payload t)] |}
       ∧ exn_cls e = ConnectionError
       ∧ is_RequestException e = false
       ∧ ¬ fault_or_terminal_sequence (invoke m lib self net c).
Proof.
  intros _ Hm Hpost Hanswer. unfold invoke. rewrite Hm.
  assert (∃ e, initiate self net (task_endpoint t) (task_payload t) = Raise e
               ∧ exn_cls e = ConnectionError) as (e & Hinit & Hcls).
  { destruct Hanswer as [[H202 Hrange]|(H202 & body & Hjson & Hfalsy)].
    - eexists. split; [by apply (initiate_not_accepted _ _ _ _ resp)|done].
    - eexists. split; [by apply (initiate_no_task_id _ _ _ _ resp body)|done]. }
  assert (is_RequestException e = false) as Hreq
    by (unfold is_RequestException; by rewrite Hcls).
  exists e. rewrite (stream_task_initiation_failed self net _ _ e Hinit), Hreq.
  split; [done|]. split; [done|]. split; [done|]. by intros [? _].
Qed.

End StreamProperties.

(* ===================================================================== *)
(** ** The properties at work *)
(* ===================================================================== *)

(** C1, at the failing input: [chat("u1", "c1", content="hello")]
    against a server that answers the POST with 200 and body [ok]. *)
Lemma C1_witness :
  chat Scenario.lib Scenario.client Scenario.hello = Ret Scenario.hello_task
  ∧ ∃ e, invoke (chat Scenario.lib) Scenario.lib Scenario.client Scenario.ok_200
           Scenario.hello
         = Streamed {| yielded := []; finish := Some e;
                       io := [IoPost "/chat/" Scenario.hello_payload] |}
         ∧ exn_cls e = ConnectionError
         ∧ ¬ fault_or_terminal_sequence
               (invoke (chat Scenario.lib) Scenario.lib Scenario.client
                  Scenario.ok_200 Scenario.hello).
Proof.
  split; [exact chat_hello_payload|].
  destruct (C1_unstarted_task_raises Scenario.lib (chat Scenario.lib)
              Scenario.client Scenario.ok_200 Scenario.hello Scenario.hello_task
              (Scenario.response 200 "OK" "ok" (Ret (PDict ∅)))
              ltac:(left) chat_hello_payload eq_refl
              ltac:(left; simpl; lia))
    as (e & Hrun & Hcls & _ & Hbroken).
  exists e. split; [exact Hrun|]. split; [exact Hcls | exact Hbroken].
Defined.

(** C2, at the failing input: the server answers 200 with body [ok]. *)
Lemma C2_witness :
  _stream_task Scenario.lib Scenario.client Scenario.ok_200 "/chat/"
    Scenario.hello_payload
  = {| yielded := [];
       finish := Some (Exn ConnectionError
                         "API Error: Failed to start task. Status: 200, Body: ok");
       io := [IoPost "/chat/" Scenario.hello_payload] |}.
Proof.
  pose proof (C2_unaccepted_status_is_raised Scenario.lib Scenario.client
                Scenario.ok_200 "/chat/" Scenario.hello_payload
                (Scenario.response 200 "OK" "ok" (Ret (PDict ∅)))
                eq_refl ltac:(simpl; lia) ltac:(simpl; lia)) as H.
  rewrite H. vm_compute. reflexivity.
Defined.

(** C3, at the failing input: the server answers 202 with body [{}]. *)
Lemma C3_witness :
  _stream_task Scenario.lib Scenario.client Scenario.accepted_without_handle
    "/chat/" Scenario.hello_payload
  = {| yielded := [];
       finish := Some (Exn ConnectionError
                         "API Error: Server accepted the task but did not return a task_id.");
       io := [IoPost "/chat/" Scenario.hello_payload] |}.
Proof.
  exact (C3_missing_task_id_is_raised Scenario.lib Scenario.client
           Scenario.accepted_without_handle "/chat/" Scenario.hello_payload
           (Scenario.response 202 "Accepted" "{}" (Ret (PDict ∅))) ∅
           eq_refl eq_refl eq_refl eq_refl).
Defined.


(** C5, at work: a keep-alive, running, completed, and behind them a
    text that is not JSON, which is never read. *)
Lemma C5_witness :
  initiate Scenario.client
    (Scenario.server Scenario.accepted
       (Ret (SseEvent <$> Scenario.completed_then_garbage)))
    "/chat/" Scenario.hello_payload = Ret (PStr "t-1")
  ∧ filter (λ data, data ≠ "") Scenario.completed_then_garbage
    = [Scenario.TXT_RUNNING; Scenario.TXT_COMPLETED] ++ [Scenario.TXT_GARBAGE]
  ∧ Scenario.loads Scenario.TXT_GARBAGE
    = Raise (Exn JSONDecodeError "Expecting property name enclosed in double quotes")
  ∧ yielded (_stream_task Scenario.lib Scenario.client
               (Scenario.server Scenario.accepted
                  (Ret (SseEvent <$> Scenario.completed_then_garbage)))
               "/chat/" Scenario.hello_payload)
    = [PDict Scenario.EV_RUNNING; PDict Scenario.EV_COMPLETED].
Proof.
  assert (initiate Scenario.client
            (Scenario.server Scenario.accepted
               (Ret (SseEvent <$> Scenario.completed_then_garbage)))
            "/chat/" Scenario.hello_payload = Ret (PStr "t-1")) as Hinit
    by (vm_compute; reflexivity).
  assert (filter (λ data, data ≠ "") Scenario.completed_then_garbage
          = [Scenario.TXT_RUNNING; Scenario.TXT_COMPLETED] ++ [Scenario.TXT_GARBAGE])
    as Hsplit by (vm_compute; reflexivity).
  split; [exact Hinit|]. split; [exact Hsplit|]. split; [vm_compute; reflexivity|].
  destruct (C5_events_in_arrival_order Scenario.lib Scenario.client
              (Scenario.server Scenario.accepted
                 (Ret (SseEvent <$> Scenario.completed_then_garbage)))
              "/chat/" Scenario.hello_payload
              (PStr "t-1") Scenario.completed_then_garbage
              Hinit eq_refl) as (Hobjects & _).
  destruct (Hobjects [Scenario.TXT_RUNNING; Scenario.TXT_COMPLETED]
              [Scenario.TXT_GARBAGE] [Scenario.EV_RUNNING; Scenario.EV_COMPLETED]
              Hsplit) as [Hyielded _].
  - repeat constructor.
  - right. apply Exists_cons_tl, Exists_cons_hd. vm_compute. reflexivity.
  - rewrite Hyielded. vm_compute. reflexivity.
Defined.

(** C5 as stated fails: the one message of the stream is the JSON
    array [[1]]. It is decoded and yielded, the status lookup on it
    raises, and the synthetic error event is yielded behind it: the
    events are not exactly the decoded messages. *)
Lemma C5_counterexample :
  initiate Scenario.client Scenario.array_only "/chat/" Scenario.hello_payload
  = Ret (PStr "t-1")
  ∧ net_sse Scenario.array_only (PStr "t-1") = Ret (SseEvent <$> [Scenario.TXT_ARRAY])
  ∧ Forall2 (λ data d, json_loads Scenario.lib data = Ret d)
      (filter (λ data, data ≠ "") [Scenario.TXT_ARRAY]) [PList [PInt 1]]
  ∧ yielded (_stream_task Scenario.lib Scenario.client Scenario.array_only
               "/chat/" Scenario.hello_payload)
    = [PList [PInt 1];
       error_event
         "Streaming Error: The connection was lost. 'list' object has no attribute 'get'"]
  ∧ yielded (_stream_task Scenario.lib Scenario.client Scenario.array_only
               "/chat/" Scenario.hello_payload)
    ≠ through_terminal [PList [PInt 1]].
Proof.
  assert (yielded (_stream_task Scenario.lib Scenario.client Scenario.array_only
                     "/chat/" Scenario.hello_payload)
          = [PList [PInt 1];
             error_event
               "Streaming Error: The connection was lost. 'list' object has no attribute 'get'"])
    as Hrun by (vm_compute; reflexivity).
  split; [vm_compute; reflexivity|]. split; [reflexivity|].
  split; [repeat constructor|]. split; [exact Hrun|].
  rewrite Hrun. discriminate.
Qed.

(** C6, at work: a path that loads, then a dict with a filename only. *)
Lemma C6_witness :
  chat Scenario.lib ∈ task_methods Scenario.lib
  ∧ keywords_accepted (call_extra Scenario.path_then_partial) = true
  ∧ prepare_loop Scenario.lib Scenario.client [PStr "notes.txt"] []
    = Ret [PDict (Scenario.descriptor "notes.txt" "application/octet-stream" "AAAA")]
  ∧ chat Scenario.lib Scenario.client Scenario.path_then_partial
    = Raise (Exn ValueError
               "Invalid file object, missing keys: ['content_type', 'base64']")
  ∧ network_calls (invoke (chat Scenario.lib) Scenario.lib Scenario.client
                     Scenario.ok_200 Scenario.path_then_partial) = [].
Proof.
  assert (prepare_loop Scenario.lib Scenario.client [PStr "notes.txt"] []
          = Ret [PDict (Scenario.descriptor "notes.txt" "application/octet-stream" "AAAA")])
    as Hpre by (vm_compute; reflexivity).
  split; [left|]. split; [reflexivity|]. split; [exact Hpre|].
  destruct (C6_validation_faults Scenario.lib (chat Scenario.lib) Scenario.client
              Scenario.path_then_partial ltac:(left) eq_refl)
    as (Hfirst & _ & _ & Hnet).
  destruct (Hfirst [PStr "notes.txt"] (PDict Scenario.partial_descriptor) [PInt 7]
              _ eq_refl Hpre) as [Hdict _].
  destruct (Hdict Scenario.partial_descriptor eq_refl
              ltac:(vm_compute; discriminate)) as [Hraise _].
  assert (MSG_MISSING_KEYS (missing_keys Scenario.partial_descriptor)
          = "Invalid file object, missing keys: ['content_type', 'base64']") as Hmsg
    by (vm_compute; reflexivity).
  rewrite Hmsg in Hraise. split; [exact Hraise|].
  exact (proj2 (Hnet _ Scenario.ok_200 Hraise)).
Defined.

(** C6 as stated fails: a dict lacking keys behind an unsupported
    element is never reached, and the fault names no key. *)
Lemma C6_counterexample :
  call_files Scenario.unsupported_then_partial
  = Some [PInt 7; PDict Scenario.partial_descriptor]
  ∧ missing_keys Scenario.partial_descriptor = ["content_type"; "base64"]
  ∧ chat Scenario.lib Scenario.client Scenario.unsupported_then_partial
    = Raise (Exn ValueError MSG_BAD_ITEM)
  ∧ chat Scenario.lib Scenario.client Scenario.unsupported_then_partial
    ≠ Raise (Exn ValueError
               (MSG_MISSING_KEYS (missing_keys Scenario.partial_descriptor))).
Proof.
  assert (chat Scenario.lib Scenario.client Scenario.unsupported_then_partial
          = Raise (Exn ValueError MSG_BAD_ITEM)) as Hraise
    by (vm_compute; reflexivity).
  split; [reflexivity|]. split; [vm_compute; reflexivity|]. split; [exact Hraise|].
  rewrite Hraise. vm_compute. discriminate.
Qed.

(** C7, at work: [chat("u1", "c1", content="hello")]. *)
Lemma C7_witness :
  chat Scenario.lib ∈ task_methods Scenario.lib
  ∧ chat Scenario.lib Scenario.client Scenario.hello = Ret Scenario.hello_task
  ∧ task_payload Scenario.hello_task !! "user_id" = Some (PStr "u1")
  ∧ task_payload Scenario.hello_task !! "chat_id" = Some (PStr "c1")
  ∧ task_payload Scenario.hello_task !! "content" = Some (PStr "hello")
  ∧ task_payload Scenario.hello_task !! "files" = None.
Proof.
  split; [left|]. split; [exact chat_hello_payload|].
  destruct (C7_payload_fields Scenario.lib (chat Scenario.lib) Scenario.client
              Scenario.hello Scenario.hello_task ltac:(left) chat_hello_payload)
    as (Hu & Hc & _ & Hcontent & _ & _ & Hfiles).
  split; [exact Hu|]. split; [exact Hc|].
  split; [exact (Hcontent ltac:(discriminate)) | exact (Hfiles (or_introl eq_refl))].
Defined.

(** C7 as stated fails: the payload has no [session_id] field; the
    session is sent as [chat_id]. *)
Lemma C7_counterexample :
  chat Scenario.lib Scenario.client Scenario.hello = Ret Scenario.hello_task
  ∧ task_payload Scenario.hello_task !! "session_id" = None
  ∧ task_payload Scenario.hello_task !! "chat_id" = Some (PStr "c1").
Proof. split; [exact chat_hello_payload|]. split; vm_compute; reflexivity. Qed.

(** C8, at work: [broken.png] is an image the compressor fails on;
    it stands between a descriptor and a path that is no image. *)
Lemma C8_witness :
  auto_compress_images Scenario.client = true
  ∧ guess_type Scenario.lib "broken.png" = Some "image/png"
  ∧ Scenario.compress "broken.png" 1280 80 true
    = Raise (Exn OSError "cannot identify image file 'broken.png'")
  ∧ ∃ t, chat Scenario.lib Scenario.client
           (Scenario.with_files [PDict Scenario.full_descriptor; PStr "broken.png";
                                 PStr "notes.txt"])
         = Ret t
         ∧ task_payload t !! "files"
           = Some (PList
                     [PDict Scenario.full_descriptor;
                      PDict (Scenario.descriptor "broken.png"
                               "application/octet-stream" "AAAA");
                      PDict (Scenario.descriptor "notes.txt"
                               "application/octet-stream" "AAAA")]).
Proof.
  split; [reflexivity|]. split; [reflexivity|]. split; [reflexivity|].
  destruct (C8_compression_failure_tolerated Scenario.lib Scenario.client
              "broken.png" "image/png" Scenario.compress
              (Exn OSError "cannot identify image file 'broken.png'")
              eq_refl eq_refl eq_refl eq_refl eq_refl eq_refl)
    as (_ & _ & _ & _ & Hlist & _).
  destruct (Hlist Scenario.load [PDict Scenario.full_descriptor] [PStr "notes.txt"]
              [PDict Scenario.full_descriptor]
              (PDict (Scenario.descriptor "broken.png" "application/octet-stream" "AAAA"))
              [PDict (Scenario.descriptor "notes.txt" "application/octet-stream" "AAAA")]
              eq_refl) as [_ Hmethod].
  - repeat constructor.
  - reflexivity.
  - repeat constructor.
  - simpl. lia.
  - exact (Hmethod (chat Scenario.lib)
             (Scenario.with_files [PDict Scenario.full_descriptor; PStr "broken.png";
                                   PStr "notes.txt"])
             ltac:(left) eq_refl eq_refl).
Defined.

(** C9, at work: [chat("u1", "c1", content="hello", domain="bioscience",
    effort="low")]. *)
Lemma C9_witness :
  chat Scenario.lib ∈ task_methods Scenario.lib
  ∧ ∃ t, chat Scenario.lib Scenario.client
           (Scenario.with_extra [("domain", PStr "bioscience"); ("effort", PStr "low")])
         = Ret t
         ∧ task_payload t !! "user_id" = Some (PStr "u1")
         ∧ task_payload t !! "domain" = Some (PStr "bioscience")
         ∧ task_payload t !! "effort" = Some (PStr "low")
         ∧ task_payload t !! "content" = Some (PStr "hello").
Proof.
  split; [left|].
  destruct (chat Scenario.lib Scenario.client
              (Scenario.with_extra [("domain", PStr "bioscience"); ("effort", PStr "low")]))
    as [t|e] eqn:Hchat; [|vm_compute in Hchat; discriminate].
  exists t. split; [reflexivity|].
  destruct (C9_merge_order Scenario.lib (chat Scenario.lib) Scenario.client _ t
              ltac:(left) Hchat) as (_ & _ & Hu & _ & Hextra & Hcontent & _).
  split; [exact Hu|].
  split; [apply Hextra; simpl; left|].
  split; [apply Hextra; simpl; right; left|].
  exact (Hcontent ltac:(discriminate)).
Defined.

(** C9 as stated fails: a keyword option named [user_id] beside the
    identity argument is rejected by the call; it overwrites nothing. *)
Lemma C9_counterexample :
  chat Scenario.lib Scenario.client
    (Scenario.with_extra [("user_id", PStr "intruder")])
  = Raise (Exn TypeError
             "DuoScienceClient.chat() got multiple values for argument 'user_id'")
  ∧ ¬ ∃ t, chat Scenario.lib Scenario.client
             (Scenario.with_extra [("user_id", PStr "intruder")]) = Ret t
           ∧ task_payload t !! "user_id" = Some (PStr "intruder").
Proof.
  assert (chat Scenario.lib Scenario.client
            (Scenario.with_extra [("user_id", PStr "intruder")])
          = Raise (Exn TypeError
                     "DuoScienceClient.chat() got multiple values for argument 'user_id'"))
    as Hraise by (vm_compute; reflexivity).
  split; [exact Hraise|]. rewrite Hraise. by intros (t & [=] & _).
Qed.

(** C10, at work: a descriptor with a key of its own, a path and a
    second descriptor. *)
Lemma C10_witness :
  _prepare_files Scenario.lib Scenario.client (Some Scenario.dict_path_dict)
  = Ret (Some [PDict Scenario.full_descriptor;
               PDict (Scenario.descriptor "notes.txt" "application/octet-stream" "AAAA");
               PDict (Scenario.descriptor "c.txt" "text/plain" "eA==")])
  ∧ Scenario.full_descriptor !! "note" = Some (PStr "kept")
  ∧ [PDict Scenario.full_descriptor;
     PDict (Scenario.descriptor "notes.txt" "application/octet-stream" "AAAA");
     PDict (Scenario.descriptor "c.txt" "text/plain" "eA==")] !! 0%nat
    = Some (PDict Scenario.full_descriptor).
Proof.
  assert (_prepare_files Scenario.lib Scenario.client (Some Scenario.dict_path_dict)
          = Ret (Some [PDict Scenario.full_descriptor;
                       PDict (Scenario.descriptor "notes.txt" "application/octet-stream" "AAAA");
                       PDict (Scenario.descriptor "c.txt" "text/plain" "eA==")]))
    as Hprep by (vm_compute; reflexivity).
  split; [exact Hprep|]. split; [vm_compute; reflexivity|].
  destruct (C10_dict_passthrough Scenario.lib Scenario.client _ _ Hprep)
    as (_ & _ & Hdict).
  exact (proj1 (Hdict 0%nat Scenario.full_descriptor eq_refl)).
Defined.

(* ===================================================================== *)
(** ** The constructor: the base URL *)
(* ===================================================================== *)

Section ConstructorProperties.

#[local] Arguments String.append !_ _ / : simpl nomatch.

Lemma rstrip_decompose (c : Ascii.ascii) (s : string) :
  ∃ n, s = rstrip c s +:+ repeat_char c n.
Proof.
  induction s as [|a rest [n IH]]; [by exists 0%nat|]. simpl.
  destruct (rstrip c rest) as [|b r] eqn:Hrest.
  - simpl in IH. destruct (Ascii.eqb a c) eqn:Hac.
    + apply Ascii.eqb_eq in Hac as ->. exists (S n). simpl. by f_equal.
    + exists n. simpl. by f_equal.
  - exists n. simpl. f_equal. exact IH.
Qed.

Lemma rstrip_no_trailing (c : Ascii.ascii) (s t : string) :
  rstrip c s ≠ t +:+ String c "".
Proof.
  revert t. induction s as [|a rest IH]; intros t; simpl.
  - by destruct t.
  - destruct (rstrip c rest) as [|b r] eqn:Hrest.
    + destruct (Ascii.eqb a c) eqn:Hac; [by destruct t|].
      apply Ascii.eqb_neq in Hac. destruct t as [|a' t]; simpl.
      * congruence.
      * intros [= _ Ht]. by destruct t.
    + destruct t as [|a' t]; simpl; [discriminate|].
      intros [= _ Ht]. by apply (IH t).
Qed.

Lemma rstrip_repeat_char (c : Ascii.ascii) (n : nat) :
  rstrip c (repeat_char c n) = "".
Proof.
  induction n as [|n IH]; [done|]. simpl. rewrite IH. by rewrite Ascii.eqb_refl.
Qed.

Lemma rstrip_app_repeat (c : Ascii.ascii) (s : string) (n : nat) :
  rstrip c (s +:+ repeat_char c n) = rstrip c s.
Proof.
  induction s as [|a rest IH]; simpl; [apply rstrip_repeat_char | by rewrite IH].
Qed.

(** X1. The client stores the base URL without its trailing slashes:
    what is cut off is a run of slashes, the stored URL does not end
    in a slash, and the number of slashes the caller writes at the end
    makes no difference to the client that is built. *)
Theorem init_strips_trailing_slashes (url : string) (timeout_s : Z)
    (auto_compress : bool) (max_dim quality : Z) (to_jpeg : bool) :
  (∃ n, url = base_url (__init__ url timeout_s auto_compress max_dim quality to_jpeg)
              +:+ repeat_char SLASH n)
  ∧ (∀ s, base_url (__init__ url timeout_s auto_compress max_dim quality to_jpeg)
          ≠ s +:+ "/")
  ∧ (∀ n, __init__ (url +:+ repeat_char SLASH n) timeout_s auto_compress
            max_dim quality to_jpeg
          = __init__ url timeout_s auto_compress max_dim quality to_jpeg).
Proof.
  split; [|split].
  - apply rstrip_decompose.
  - intros s. apply (rstrip_no_trailing SLASH url s).
  - intros n. unfold __init__. by rewrite rstrip_app_repeat.
Qed.

End ConstructorProperties.

(* ===================================================================== *)
(** ** More on the file normalisation *)
(* ===================================================================== *)

Section ComposerExtras.

Context (lib : imports).

Implicit Types (self : DuoScienceClient) (c : call) (t : task).

Lemma prepare_item_conforming (l : imports) self (d : pyval) :
  conforming d = true → prepare_item l self d = Ret d.
Proof.
  destruct d as [| | | | | |m]; try done. simpl. intros Hm%bool_decide_eq_true.
  by rewrite Hm.
Qed.

Lemma prepare_all_conforming (l : imports) self (fs : list pyval) :
  Forall (λ d, conforming d = true) fs →
  Forall2 (λ item d, prepare_item l self item = Ret d) fs fs.
Proof.
  induction 1 as [|d fs Hd _ IH]; constructor; [|done].
  by apply prepare_item_conforming.
Qed.

(** X2. The limit of 10 is checked on the prepared list, after every
    element has been loaded or validated: when each element can be
    prepared, a non-empty list of at most 10 elements is returned
    prepared, a longer one is refused as too many files, and an empty
    one gives None. *)
Theorem files_limit_on_prepared_list self (fs ds : list pyval) :
  Forall2 (λ item d, prepare_item lib self item = Ret d) fs ds →
  _prepare_files lib self (Some fs)
  = if bool_decide (fs = []) then Ret None
    else if bool_decide (length fs ≤ 10)%nat then Ret (Some ds)
    else Raise (Exn ValueError MSG_TOO_MANY).
Proof.
  intros Hall. pose proof (Forall2_length _ _ _ Hall) as Hlen.
  destruct fs as [|item rest]; [done|]. rewrite bool_decide_eq_false_2 by done.
  assert (prepare_loop lib self (item :: rest) [] = Ret ds) as Hloop
    by (apply prepare_loop_Ret; by exists ds).
  unfold _prepare_files. rewrite Hloop. simpl in *.
  destruct (10 <? length ds)%nat eqn:Hlt; case_bool_decide as Hle; try done.
  - apply Nat.ltb_lt in Hlt. lia.
  - apply Nat.ltb_ge in Hlt. lia.
Qed.

Lemma prepare_item_dict_any (lib' : imports) self (self' : DuoScienceClient)
    (item : pyval) :
  is_dict item = true →
  prepare_item lib self item = prepare_item lib' self' item.
Proof. by destruct item. Qed.

Lemma prepare_loop_dicts (lib' : imports) self (self' : DuoScienceClient)
    (fs acc : list pyval) :
  Forall (λ item, is_dict item = true) fs →
  prepare_loop lib self fs acc = prepare_loop lib' self' fs acc.
Proof.
  intros Hall. revert acc. induction Hall as [|item fs Hitem _ IH]; intros acc; [done|].
  simpl. rewrite (prepare_item_dict_any lib' self self' item Hitem).
  destruct (prepare_item lib' self' item); simpl; [apply IH | done].
Qed.

(** X3. Descriptors the caller has built are checked for their keys
    and nothing else: for a list of dicts the outcome of
    [_prepare_files] is the same whatever the loader, the compressor,
    the MIME guesser and the client's settings are. *)
Theorem descriptors_need_no_collaborator (lib' : imports) self
    (self' : DuoScienceClient) (fs : list pyval) :
  Forall (λ item, is_dict item = true) fs →
  _prepare_files lib self (Some fs) = _prepare_files lib' self' (Some fs).
Proof.
  intros Hall. unfold _prepare_files. destruct fs as [|item rest]; [done|].
  by rewrite (prepare_loop_dicts lib' self self' _ [] Hall).
Qed.

(** X4. Preparing is idempotent on its own output: when the files are
    prepared and every prepared descriptor has the three required keys
    (as the loader's descriptors are meant to), preparing the prepared
    list again, by any client, returns it unchanged. *)
Theorem prepared_files_pass_again (lib' : imports) self
    (self' : DuoScienceClient) (fs prepared : list pyval) :
  _prepare_files lib self (Some fs) = Ret (Some prepared) →
  Forall (λ d, conforming d = true) prepared →
  _prepare_files lib' self' (Some prepared) = Ret (Some prepared).
Proof.
  intros (Hne & Hlen & Hall)%prepare_files_Ret Hconf.
  apply prepare_files_Ret. split; [|split; [done|]].
  - intros ->. apply Forall2_nil_inv_r in Hall. done.
  - by apply prepare_all_conforming.
Qed.

(** X5. Which file is loaded for a path element. When compression is
    switched off, the guessed MIME type is not an image type, or the
    compressor is unavailable, the loader is given the path itself.
    When the compressor is consulted and returns a path, the loader is
    given that path, and whatever the loader returns (or raises) is
    the outcome for the element: the descriptor is not checked. *)
Theorem loaded_path_of_an_element self (path : string)
    (load : string → res pyval) :
  load_file_as_payload lib = Some load →
  (auto_compress_images self = false
   ∨ String.prefix "image/" (default "" (guess_type lib path)) = false
   ∨ compress_image lib = None →
   prepare_item lib self (PStr path) = load path)
  ∧ (∀ compress compressed,
       auto_compress_images self = true →
       String.prefix "image/" (default "" (guess_type lib path)) = true →
       compress_image lib = Some compress →
       compress path (image_max_dim self) (image_quality self)
                (convert_images_to_jpeg self) = Ret compressed →
       prepare_item lib self (PStr path) = load compressed).
Proof.
  intros Hload. split.
  - intros Hoff. simpl. rewrite Hload. unfold path_to_use.
    destruct (auto_compress_images self); [|done].
    destruct (String.prefix "image/" (default "" (guess_type lib path))); [|done].
    destruct Hoff as [?|[?|Hnone]]; [done..|]. by rewrite Hnone.
  - intros compress compressed Hauto Himage Hcompress Hok.
    simpl. rewrite Hload. unfold path_to_use.
    by rewrite Hauto, Himage, Hcompress, Hok.
Qed.

End ComposerExtras.

(* ===================================================================== *)
(** ** More on the payload *)
(* ===================================================================== *)

Section PayloadExtras.

#[local] Set Warnings "-clear-no-such-hyp".

Context (lib : imports).

Implicit Types (self : DuoScienceClient) (c : call) (t : task).

Lemma files_entry_is_Some (pf : option (list pyval)) (k : string) :
  is_Some (files_entry pf !! k) ↔ k = "files" ∧ ∃ d ds, pf = Some (d :: ds).
Proof.
  destruct pf as [[|d ds]|]; simpl.
  - rewrite lookup_empty. split; [by intros [? ?] | by intros (_ & ? & ? & ?)].
  - rewrite lookup_singleton_is_Some. split; [intros <-; eauto | by intros [-> _]].
  - rewrite lookup_empty. split; [by intros [? ?] | by intros (_ & ? & ? & ?)].
Qed.

Lemma content_entry_is_Some (content : pyval) (k : string) :
  is_Some (content_entry content !! k) ↔ k = "content" ∧ content ≠ PNone.
Proof.
  destruct content; simpl; rewrite ?lookup_empty, ?lookup_singleton_is_Some;
    split; try (by intros [? ?]); try (by intros <-); by intros [-> _].
Qed.

Lemma prepare_files_Some_iff self (files pf : option (list pyval)) :
  _prepare_files lib self files = Ret pf →
  (∃ d ds, pf = Some (d :: ds)) ↔ ∃ fs, files = Some fs ∧ fs ≠ [].
Proof.
  intros Hpf. destruct files as [[|item rest]|].
  - injection Hpf as <-. split; [by intros (? & ? & ?) | by intros (? & [= <-] & ?)].
  - destruct pf as [prepared|].
    + apply prepare_files_Ret in Hpf as (_ & _ & Hall).
      apply Forall2_cons_inv_l in Hall as (d & ds & _ & _ & ->).
      split; [by eexists | by eexists _, _].
    + unfold _prepare_files in Hpf. apply bind_Ret in Hpf as (out & _ & Hout).
      by destruct (10 <? length out)%nat.
  - injection Hpf as <-. split; [by intros (? & ? & ?) | by intros (? & ? & _)].
Qed.

(** X7. The keys of the payload are the two identity fields, the
    names of the further keyword options, [content] when the content
    argument is not None and [files] when a non-empty files argument
    is given; the payload has no other key. *)
Theorem payload_has_exactly_these_keys
    (m : DuoScienceClient → call → res task) self c t (k : string) :
  m ∈ task_methods lib → m self c = Ret t →
  is_Some (task_payload t !! k)
  ↔ k = "user_id" ∨ k = "chat_id" ∨ k ∈ (call_extra c).*1
    ∨ (k = "content" ∧ call_content c ≠ PNone)
    ∨ (k = "files" ∧ ∃ fs, call_files c = Some fs ∧ fs ≠ []).
Proof.
  intros Hm Ht.
  destruct (task_method_Ret lib m self c t Hm Ht) as (_ & pf & Hpf & ->).
  rewrite !lookup_union_is_Some, files_entry_is_Some, content_entry_is_Some.
  rewrite (prepare_files_Some_iff self _ _ Hpf).
  unfold identity_entries.
  rewrite lookup_insert_is_Some', lookup_singleton_is_Some.
  assert (is_Some ((list_to_map (call_extra c) : gmap string pyval) !! k)
          ↔ k ∈ (call_extra c).*1) as ->.
  { rewrite <- elem_of_dom, dom_list_to_map_L. set_solver. }
  naive_solver.
Qed.

End PayloadExtras.

(* ===================================================================== *)
(** ** More on the initiation and the stream *)
(* ===================================================================== *)

Section StreamExtras.

#[local] Set Warnings "-clear-no-such-hyp".

Context (lib : imports).

Implicit Types (self : DuoScienceClient) (net : network).
Implicit Types (endpoint : string) (payload : gmap string pyval).
Implicit Types (script pre post : list sse_next) (ys : list pyval).

Lemma raise_for_status_202 (resp : Response) :
  status_code resp = 202 → raise_for_status resp = Ret ().
Proof. intros H. unfold raise_for_status. by rewrite H. Qed.

(** X8. The only way to a task handle: the initiation returns the
    handle [task_id] exactly when the POST is answered with status
    202 and a JSON object whose [task_id] is that value and is truthy
    (any non-empty string, but also a non-zero number). *)
Theorem handle_only_from_accepted_object self net endpoint payload
    (task_id : pyval) :
  initiate self net endpoint payload = Ret task_id
  ↔ ∃ resp body,
      net_post net endpoint payload = Ret resp
      ∧ status_code resp = 202
      ∧ resp_json resp = Ret (PDict body)
      ∧ body !! "task_id" = Some task_id
      ∧ truthy task_id = true.
Proof.
  unfold initiate. split.
  - intros (resp & Hpost & Hrest)%bind_Ret. exists resp.
    apply bind_Ret in Hrest as ([] & _ & Hrest).
    destruct (status_code resp =? 202) eqn:H202; [|discriminate].
    apply Z.eqb_eq in H202.
    apply bind_Ret in Hrest as (v & Hjson & Hrest).
    apply bind_Ret in Hrest as (tid & Hget & Hrest).
    destruct (truthy tid) eqn:Htruthy; [|discriminate]. injection Hrest as ->.
    destruct v as [| | | | | |body]; try discriminate. exists body.
    simpl in Hget. injection Hget as Hget.
    destruct (body !! "task_id") as [v|] eqn:Hbody; simpl in Hget; subst; done.
  - intros (resp & body & -> & H202 & Hjson & Hbody & Htruthy). simpl.
    rewrite raise_for_status_202 by done. simpl. rewrite H202. simpl.
    rewrite Hjson. simpl. rewrite Hbody. simpl. by rewrite Htruthy.
Qed.


(** X11. What reaches the caller as an exception. When the generator
    raises, either the initiation raised an exception outside the
    [requests] package and nothing at all was yielded, or the stream
    raised an exception that is no [Exception] (a bare BaseException)
    and no error event was added. Every other failure is an event. *)
Theorem what_the_generator_raises self net endpoint payload (e : exn) :
  finish (_stream_task lib self net endpoint payload) = Some e →
  (initiate self net endpoint payload = Raise e
   ∧ is_RequestException e = false
   ∧ yielded (_stream_task lib self net endpoint payload) = [])
  ∨ (∃ task_id ys,
       initiate self net endpoint payload = Ret task_id
       ∧ stream_body lib net task_id = (ys, Faulted e)
       ∧ is_Exception e = false
       ∧ yielded (_stream_task lib self net endpoint payload) = ys).
Proof.
  unfold _stream_task.
  destruct (initiate self net endpoint payload) as [tid|e'] eqn:Hinit.
  - destruct (stream_body lib net tid) as [ys r] eqn:Hbody.
    destruct r as [| |e']; simpl; [done..|].
    destruct (is_Exception e') eqn:Hexc; simpl; [done|].
    intros [= ->]. right. by exists tid, ys.
  - destruct (is_RequestException e') eqn:Hreq; simpl; [done|].
    intros [= ->]. by left.
Qed.

(** X12. Once a terminal event has been yielded, the rest of the
    stream is never read: whatever follows the first message with
    status completed, error or failed (malformed data, a lost
    connection, further events) changes nothing, and no error event is
    added. *)
Theorem nothing_after_terminal_is_read self net endpoint payload
    (task_id : pyval) pre post ys (data : string) (d : pyval) :
  initiate self net endpoint payload = Ret task_id →
  net_sse net task_id = Ret (pre ++ SseEvent data :: post) →
  sse_loop lib pre = (ys, Exhausted) →
  data ≠ "" → json_loads lib data = Ret d → is_terminal_event d = true →
  _stream_task lib self net endpoint payload
  = {| yielded := ys ++ [d]; finish := None;
       io := [IoPost endpoint payload; IoStream task_id] |}.
Proof.
  intros Hinit Hsse Hpre Hne%String.eqb_neq Hdata Hterm.
  unfold _stream_task, stream_body. rewrite Hinit, Hsse.
  rewrite (sse_loop_app lib pre _ ys Hpre). cbn [sse_loop].
  rewrite Hne, Hdata. unfold is_terminal_event in Hterm.
  destruct (py_get d "status") as [status|e]; [|discriminate].
  by rewrite Hterm.
Qed.

(** The events of the loop are the decodings of the first non-empty
    messages of the script, one for one. *)
Lemma sse_loop_leading_messages script :
  ∃ k, Forall2 (λ data d, json_loads lib data = Ret d)
               (take k (script_data script)) (sse_loop lib script).1.
Proof.
  induction script as [|[data|e] script [k IH]]; [by exists 0%nat| |by exists 0%nat].
  cbn [sse_loop script_data]. destruct (String.eqb data ""); [by exists k|].
  destruct (json_loads lib data) as [d|e] eqn:Hdata; [|by exists 0%nat].
  destruct (py_get d "status") as [status|e].
  - destruct (is_terminal_status status).
    + exists 1%nat. simpl. rewrite take_0. by repeat constructor.
    + exists (S k). destruct (sse_loop lib script) as [zs r]. simpl in *.
      by constructor.
  - exists 1%nat. simpl. rewrite take_0. by repeat constructor.
Qed.

(** X13. Every event the generator yields while it streams is the
    decoding of a message of the stream, except for at most one
    synthetic error event at the end: the events are the decodings of
    the first k non-empty messages, in arrival order, none left out
    and none repeated. *)
Theorem events_are_the_leading_messages self net endpoint payload
    (task_id : pyval) script :
  initiate self net endpoint payload = Ret task_id →
  net_sse net task_id = Ret script →
  ∃ (k : nat) (events synthetic : list pyval),
    yielded (_stream_task lib self net endpoint payload) = events ++ synthetic
    ∧ Forall2 (λ data d, json_loads lib data = Ret d)
              (take k (script_data script)) events
    ∧ (synthetic = [] ∨ ∃ e, synthetic = [error_event (MSG_STREAM_LOST e)]).
Proof.
  intros Hinit Hsse. destruct (sse_loop_leading_messages script) as [k Hk].
  unfold _stream_task, stream_body. rewrite Hinit, Hsse.
  destruct (sse_loop lib script) as [ys r]. simpl in Hk.
  destruct r as [| |e]; simpl.
  - exists k, ys, []. rewrite app_nil_r. auto.
  - exists k, ys, []. rewrite app_nil_r. auto.
  - destruct (is_Exception e); simpl.
    + exists k, ys, [error_event (MSG_STREAM_LOST e)]. eauto.
    + exists k, ys, []. rewrite app_nil_r. auto.
Qed.

(** X14. An acceptance whose body is not what is expected. When the
    POST is answered with 202 and the JSON body is not an object (a
    list, a string, null), reading [task_id] raises an AttributeError
    that the first handler does not catch: the generator yields
    nothing and raises it. When the body is not JSON at all, the
    failure of [response.json()] becomes the single error event
    exactly when it is an exception of the [requests] package. *)
Theorem accepted_body_must_be_an_object self net endpoint payload
    (resp : Response) :
  net_post net endpoint payload = Ret resp →
  status_code resp = 202 →
  (∀ body, resp_json resp = Ret body → is_dict body = false →
     _stream_task lib self net endpoint payload
     = {| yielded := [];
          finish := Some (Exn AttributeError
                            ("'" +:+ type_name body
                             +:+ "' object has no attribute 'get'"));
          io := [IoPost endpoint payload] |})
  ∧ (∀ e, resp_json resp = Raise e →
       _stream_task lib self net endpoint payload
       = if is_RequestException e
         then {| yielded := [error_event (MSG_START_FAILED e)];
                 finish := None; io := [IoPost endpoint payload] |}
         else {| yielded := []; finish := Some e;
                 io := [IoPost endpoint payload] |}).
Proof.
  intros Hpost H202. split.
  - intros body Hjson Hdict. unfold _stream_task, initiate. rewrite Hpost. simpl.
    rewrite raise_for_status_202 by done. simpl. rewrite H202. simpl.
    rewrite Hjson. by destruct body.
  - intros e Hjson. unfold _stream_task, initiate. rewrite Hpost. simpl.
    rewrite raise_for_status_202 by done. simpl. rewrite H202. simpl.
    by rewrite Hjson.
Qed.

(** X22. A generator that returns ends its sequence in a terminal
    event. When the run does not raise and its stream loop is left by
    the [break] or by an exception (the [SSEClient] iterator does not
    end by itself), the events yielded are not empty, the last one has
    a terminal status, and no other one has. *)
Theorem returning_generator_ends_terminal self net endpoint payload :
  finish (_stream_task lib self net endpoint payload) = None →
  (∀ task_id ys, initiate self net endpoint payload = Ret task_id →
                 stream_body lib net task_id ≠ (ys, Exhausted)) →
  ends_terminal (yielded (_stream_task lib self net endpoint payload)).
Proof.
  unfold _stream_task.
  destruct (initiate self net endpoint payload) as [task_id|e] eqn:Hinit.
  - destruct (stream_body lib net task_id) as [ys r] eqn:Hbody.
    assert (match r with
            | Broke => ends_terminal ys
            | _ => Forall (λ ev, is_terminal_event ev = false) ys
            end) as Hterm.
    { unfold stream_body in Hbody. destruct (net_sse net task_id) as [script|e].
      - pose proof (sse_loop_terminal lib script) as Hterm. by rewrite Hbody in Hterm.
      - by injection Hbody as <- <-. }
    destruct r as [| |e]; simpl.
    + intros _ Hleft. by destruct (Hleft task_id ys).
    + done.
    + destruct (is_Exception e); simpl; [|done]. intros _ _.
      by exists ys, (error_event (MSG_STREAM_LOST e)).
  - destruct (is_RequestException e); simpl; [|done]. intros _ _.
    by exists [], (error_event (MSG_START_FAILED e)).
Qed.

End StreamExtras.

(* ===================================================================== *)
(** ** The consumer of the example *)
(* ===================================================================== *)

(** Reading the answer off [final_result] raises exactly when it is
    not an object. *)
Lemma read_answer_Raise (final_result : pyval) (e : exn) :
  (response ← py_get final_result "response";
   if truthy response then Ret response else py_get final_result "content")
  = Raise e
  ↔ is_dict final_result = false
    ∧ e = Exn AttributeError
            ("'" +:+ type_name final_result +:+ "' object has no attribute 'get'").
Proof.
  destruct final_result as [| | | | | |m]; simpl;
    try (split; [by intros [= <-] | by intros [_ ->]]).
  destruct (truthy (default PNone (m !! "response")));
    (split; [discriminate | by intros [? _]]).
Qed.

(** The answer of a completed event cannot be read exactly when the
    value it is read from, a truthy [result] or else the [payload], is
    not an object. *)
Lemma final_answer_Raise (d : gmap string pyval) (e : exn) :
  final_answer (PDict d) = Raise e
  ↔ ∃ v, is_dict v = false
         ∧ e = Exn AttributeError
                 ("'" +:+ type_name v +:+ "' object has no attribute 'get'")
         ∧ ((d !! "result" = Some v ∧ truthy v = true)
            ∨ (truthy (default (PDict ∅) (d !! "result")) = false
               ∧ d !! "payload" = Some v)).
Proof.
  unfold final_answer. cbn [py_get_default mbind res_bind].
  destruct (truthy (default (PDict ∅) (d !! "result"))) eqn:Hresult;
    cbn [negb mbind res_bind]; rewrite read_answer_Raise.
  - split.
    + intros [Hdict ->]. exists (default (PDict ∅) (d !! "result")).
      split; [done|]. split; [done|]. left.
      destruct (d !! "result") as [v|]; [done|discriminate].
    + intros (v & Hdict & -> & [[Hv Htruthy]|[? _]]); [|done].
      by rewrite Hv.
  - split.
    + intros [Hdict ->]. exists (default (PDict ∅) (d !! "payload")).
      split; [done|]. split; [done|]. right. split; [done|].
      destruct (d !! "payload") as [v|]; [done|discriminate].
    + intros (v & Hdict & -> & [[Hv Htruthy]|[_ Hv]]).
      * rewrite Hv in Hresult. simpl in Hresult. congruence.
      * by rewrite Hv.
Qed.

(** X15. The legacy [payload] field is an alias of [result] for a
    completed event: an object carried under [payload] gives the same
    answer as the same object carried under [result], namely its
    [response] when that is truthy and its [content] otherwise; and
    when a non-empty [result] object is present, a [payload] beside it
    is ignored. *)
Theorem payload_is_an_alias_of_result (ev body : gmap string pyval) :
  ev !! "result" = None → ev !! "payload" = None →
  final_answer (PDict (<["result" := PDict body]> ev))
  = Ret (if truthy (default PNone (body !! "response"))
         then default PNone (body !! "response")
         else default PNone (body !! "content"))
  ∧ final_answer (PDict (<["payload" := PDict body]> ev))
    = final_answer (PDict (<["result" := PDict body]> ev))
  ∧ (body ≠ ∅ → ∀ legacy,
       final_answer (PDict (<["result" := PDict body]> (<["payload" := legacy]> ev)))
       = final_answer (PDict (<["result" := PDict body]> ev))).
Proof.
  intros Hresult Hpayload.
  assert (∀ m : gmap string pyval,
            final_answer (PDict (<["result" := PDict body]> m))
            = if bool_decide (body = ∅)
              then (final_result ← py_get_default (PDict (<["result" := PDict body]> m))
                                    "payload" (PDict ∅);
                    response ← py_get final_result "response";
                    if truthy response then Ret response
                    else py_get final_result "content")
              else Ret (if truthy (default PNone (body !! "response"))
                        then default PNone (body !! "response")
                        else default PNone (body !! "content"))) as Hres.
  { intros m. unfold final_answer. simpl. rewrite lookup_insert_eq. simpl.
    destruct (decide (body = ∅)) as [->|Hbody].
    - by rewrite dom_empty_L, !bool_decide_eq_true_2 by done.
    - rewrite (bool_decide_eq_false_2 (dom body = ∅))
        by (by rewrite dom_empty_iff_L).
      rewrite (bool_decide_eq_false_2 (body = ∅)) by done. simpl.
      by destruct (truthy (default PNone (body !! "response"))). }
  assert (final_answer (PDict (<["result" := PDict body]> ev))
          = Ret (if truthy (default PNone (body !! "response"))
                 then default PNone (body !! "response")
                 else default PNone (body !! "content"))) as Hdirect.
  { rewrite Hres. case_bool_decide as Hbody; [|done]. subst body. simpl.
    rewrite lookup_insert_ne by done. rewrite Hpayload. simpl.
    by rewrite !lookup_empty. }
  split; [done|]. split.
  - rewrite Hdirect. unfold final_answer. simpl.
    rewrite lookup_insert_ne by done. rewrite Hresult. simpl.
    rewrite dom_empty_L, bool_decide_eq_true_2 by done. simpl.
    rewrite lookup_insert_eq. simpl.
    by destruct (truthy (default PNone (body !! "response"))).
  - intros Hbody legacy. rewrite Hdirect, Hres. by rewrite bool_decide_eq_false_2.
Qed.

(** X16. The loop body of the example raises exactly in two cases,
    and then an AttributeError naming the type of the value that has
    no [get]: for an event that is not an object; and for a completed
    event whose answer is read from a value that is not an object,
    which is its [result] when that is truthy and its [payload]
    otherwise. The synthetic error events of the generator are always
    logged, at level ERROR, with their message. *)
Theorem consumer_raises_only_on_non_objects (event : pyval) (e : exn) :
  ((handle_event event).2 = Some e
   ↔ (is_dict event = false
      ∧ e = Exn AttributeError
              ("'" +:+ type_name event +:+ "' object has no attribute 'get'"))
     ∨ ∃ (d : gmap string pyval) (v : pyval),
         event = PDict d ∧ d !! "status" = Some (PStr "completed")
         ∧ is_dict v = false
         ∧ e = Exn AttributeError
                 ("'" +:+ type_name v +:+ "' object has no attribute 'get'")
         ∧ ((d !! "result" = Some v ∧ truthy v = true)
            ∨ (truthy (default (PDict ∅) (d !! "result")) = false
               ∧ d !! "payload" = Some v)))
  ∧ ∀ message,
      handle_event (error_event message)
      = ([Log ERROR "❌ ERROR: " (Some (PStr message))], None).
Proof.
  split; [|done]. unfold handle_event.
  destruct event as [| | | | | |d];
    try (simpl; split;
         [intros [= <-]; by left
         |by intros [[_ ->]|(d & v & Hev & _)]]).
  cbn [py_get].
  assert (∀ P : Prop,
            (P ↔ ∃ v, d !! "status" = Some (PStr "completed")
                      ∧ is_dict v = false
                      ∧ e = Exn AttributeError
                              ("'" +:+ type_name v
                               +:+ "' object has no attribute 'get'")
                      ∧ ((d !! "result" = Some v ∧ truthy v = true)
                         ∨ (truthy (default (PDict ∅) (d !! "result")) = false
                            ∧ d !! "payload" = Some v))) →
            (P ↔ (is_dict (PDict d) = false
                  ∧ e = Exn AttributeError
                          ("'" +:+ type_name (PDict d)
                           +:+ "' object has no attribute 'get'"))
                 ∨ ∃ (d' : gmap string pyval) (v : pyval),
                     PDict d = PDict d' ∧ d' !! "status" = Some (PStr "completed")
                     ∧ is_dict v = false
                     ∧ e = Exn AttributeError
                             ("'" +:+ type_name v
                              +:+ "' object has no attribute 'get'")
                     ∧ ((d' !! "result" = Some v ∧ truthy v = true)
                        ∨ (truthy (default (PDict ∅) (d' !! "result")) = false
                           ∧ d' !! "payload" = Some v)))) as Hshape.
  { intros P ->. split.
    - intros (v & ? & ? & ? & ?). right. by exists d, v.
    - intros [[[=] _]|(d' & v & [= <-] & ? & ? & ? & ?)]. by exists v. }
  apply Hshape. clear Hshape.
  destruct (d !! "status") as [status|] eqn:Hstatus; simpl.
  2:{ split; [done | by intros (v & [=] & _)]. }
  destruct (py_eq_str status "running") eqn:Hrunning; simpl.
  { split; [done|]. intros (v & [= ->] & _). discriminate. }
  destruct (py_eq_str status "completed") eqn:Hcompleted; simpl.
  - destruct status as [| | | |s| |]; try done.
    apply String.eqb_eq in Hcompleted as ->.
    pose proof (final_answer_Raise d e) as Hanswer.
    destruct (final_answer (PDict d)) as [answer|e'] eqn:Hfinal; simpl.
    + split; [done|]. intros (v & _ & Hv). destruct Hanswer as [_ Hanswer].
      assert (Ret answer = Raise e) as [=] by (apply Hanswer; by exists v).
    + split.
      * intros [= ->]. destruct Hanswer as [Hanswer _].
        destruct (Hanswer eq_refl) as (v & Hv). by exists v.
      * intros (v & _ & Hv). destruct Hanswer as [_ Hanswer].
        assert (Raise e' = Raise e) as [= ->] by (apply Hanswer; by exists v). done.
  - assert (status ≠ PStr "completed") as Hnot.
    { intros ->. discriminate. }
    destruct (py_eq_str status "error" || py_eq_str status "failed"); simpl;
      (split; [done | by intros (v & [= ->] & _)]).
Qed.


(* ===================================================================== *)
(** ** The further properties at work *)
(* ===================================================================== *)

(** X2, at work: eleven descriptors are one too many, ten are fine. *)
Lemma files_limit_witness :
  _prepare_files Scenario.lib Scenario.client
    (Some (replicate 11 (PDict Scenario.full_descriptor)))
  = Raise (Exn ValueError MSG_TOO_MANY)
  ∧ _prepare_files Scenario.lib Scenario.client
      (Some (replicate 10 (PDict Scenario.full_descriptor)))
    = Ret (Some (replicate 10 (PDict Scenario.full_descriptor))).
Proof.
  split.
  - rewrite (files_limit_on_prepared_list Scenario.lib Scenario.client _
               (replicate 11 (PDict Scenario.full_descriptor))).
    + vm_compute. reflexivity.
    + repeat (constructor; [vm_compute; reflexivity|]). constructor.
  - rewrite (files_limit_on_prepared_list Scenario.lib Scenario.client _
               (replicate 10 (PDict Scenario.full_descriptor))).
    + vm_compute. reflexivity.
    + repeat (constructor; [vm_compute; reflexivity|]). constructor.
Defined.

(** X3, at work: two descriptors, one of them partial, with the
    scenario's helpers and with no helper at all. *)
Lemma descriptors_need_no_collaborator_witness :
  _prepare_files Scenario.lib Scenario.client
    (Some [PDict Scenario.full_descriptor; PDict Scenario.partial_descriptor])
  = _prepare_files
      {| load_file_as_payload := None; compress_image := None;
         guess_type := λ _, None; json_loads := Scenario.loads |}
      (without_compression Scenario.client)
      (Some [PDict Scenario.full_descriptor; PDict Scenario.partial_descriptor]).
Proof.
  apply descriptors_need_no_collaborator. by repeat constructor.
Defined.

(** X4, at work: the list prepared from a descriptor, a path and a
    descriptor is accepted again as it is, with no helper at hand. *)
Lemma prepared_files_pass_again_witness :
  ∃ prepared,
    _prepare_files Scenario.lib Scenario.client (Some Scenario.dict_path_dict)
    = Ret (Some prepared)
    ∧ length prepared = 3%nat
    ∧ _prepare_files
        {| load_file_as_payload := None; compress_image := None;
           guess_type := λ _, None; json_loads := Scenario.loads |}
        Scenario.client (Some prepared)
      = Ret (Some prepared).
Proof.
  eexists. split; [vm_compute; reflexivity|]. split; [reflexivity|].
  eapply (prepared_files_pass_again Scenario.lib _ Scenario.client Scenario.client
            Scenario.dict_path_dict).
  - vm_compute. reflexivity.
  - repeat (constructor; [vm_compute; reflexivity|]). constructor.
Defined.

(** X5, at work: [photo.png] is compressed to [photo.png.jpg], which
    is what gets loaded; [notes.txt] is loaded as it is. *)
Lemma loaded_path_witness :
  prepare_item Scenario.lib Scenario.client (PStr "photo.png")
  = Ret (PDict (Scenario.descriptor "photo.png.jpg" "application/octet-stream" "AAAA"))
  ∧ prepare_item Scenario.lib Scenario.client (PStr "notes.txt")
    = Ret (PDict (Scenario.descriptor "notes.txt" "application/octet-stream" "AAAA")).
Proof.
  destruct (loaded_path_of_an_element Scenario.lib Scenario.client "photo.png"
              Scenario.load eq_refl) as [_ Hcompressed].
  destruct (loaded_path_of_an_element Scenario.lib Scenario.client "notes.txt"
              Scenario.load eq_refl) as [Hplain _].
  split.
  - rewrite (Hcompressed Scenario.compress "photo.png.jpg" eq_refl eq_refl eq_refl
               eq_refl).
    vm_compute. reflexivity.
  - rewrite (Hplain (or_intror (or_introl eq_refl))). vm_compute. reflexivity.
Defined.

(** X7, at work: the keys of the payload of
    [chat("u1", "c1", content="hello")]. *)
Lemma payload_keys_witness :
  chat Scenario.lib Scenario.client Scenario.hello = Ret Scenario.hello_task
  ∧ is_Some (task_payload Scenario.hello_task !! "content")
  ∧ ¬ is_Some (task_payload Scenario.hello_task !! "files")
  ∧ ¬ is_Some (task_payload Scenario.hello_task !! "session_id").
Proof.
  split; [exact chat_hello_payload|].
  pose proof (λ k, payload_has_exactly_these_keys Scenario.lib (chat Scenario.lib)
                     Scenario.client Scenario.hello Scenario.hello_task k
                     ltac:(left) chat_hello_payload) as Hkeys.
  split; [|split].
  - apply Hkeys. right. right. right. left. by split.
  - intros [[=]|[[=]|[[]%elem_of_nil|[[[=] _]|[_ (fs & [=] & _)]]]]]%Hkeys.
  - intros [[=]|[[=]|[[]%elem_of_nil|[[[=] _]|[[=] _]]]]]%Hkeys.
Defined.

(** X11, at work: the answer 200 makes the generator raise with
    nothing yielded. *)
Lemma what_the_generator_raises_witness :
  finish (_stream_task Scenario.lib Scenario.client Scenario.ok_200 "/chat/"
            Scenario.hello_payload)
  = Some (Exn ConnectionError "API Error: Failed to start task. Status: 200, Body: ok")
  ∧ is_RequestException
      (Exn ConnectionError "API Error: Failed to start task. Status: 200, Body: ok")
    = false
  ∧ yielded (_stream_task Scenario.lib Scenario.client Scenario.ok_200 "/chat/"
               Scenario.hello_payload) = [].
Proof.
  assert (finish (_stream_task Scenario.lib Scenario.client Scenario.ok_200 "/chat/"
                    Scenario.hello_payload)
          = Some (Exn ConnectionError
                    "API Error: Failed to start task. Status: 200, Body: ok")) as Hfinish
    by (vm_compute; reflexivity).
  split; [exact Hfinish|].
  destruct (what_the_generator_raises Scenario.lib Scenario.client Scenario.ok_200
              "/chat/" Scenario.hello_payload _ Hfinish)
    as [(_ & Hreq & Hyielded)|(task_id & ys & Hinit & _)].
  - split; [exact Hreq | exact Hyielded].
  - vm_compute in Hinit. discriminate.
Defined.

(** X12, at work: what follows the completed event is not read. *)
Lemma nothing_after_terminal_witness :
  _stream_task Scenario.lib Scenario.client Scenario.running_then_completed
    "/chat/" Scenario.hello_payload
  = {| yielded := [PDict Scenario.EV_RUNNING] ++ [PDict Scenario.EV_COMPLETED];
       finish := None;
       io := [IoPost "/chat/" Scenario.hello_payload; IoStream (PStr "t-1")] |}.
Proof.
  apply (nothing_after_terminal_is_read Scenario.lib Scenario.client
           Scenario.running_then_completed "/chat/" Scenario.hello_payload
           (PStr "t-1")
           [SseEvent ""; SseEvent Scenario.TXT_RUNNING; SseEvent ""]
           [SseEvent Scenario.TXT_RUNNING]
           [PDict Scenario.EV_RUNNING] Scenario.TXT_COMPLETED
           (PDict Scenario.EV_COMPLETED)).
  - vm_compute. reflexivity.
  - reflexivity.
  - vm_compute. reflexivity.
  - vm_compute. discriminate.
  - vm_compute. reflexivity.
  - vm_compute. reflexivity.
Defined.

(** X13, at work: a running event, then the connection is lost. *)
Lemma events_are_the_leading_messages_witness :
  initiate Scenario.client Scenario.running_then_lost "/chat/" Scenario.hello_payload
  = Ret (PStr "t-1")
  ∧ ∃ (k : nat) (events synthetic : list pyval),
      yielded (_stream_task Scenario.lib Scenario.client Scenario.running_then_lost
                 "/chat/" Scenario.hello_payload) = events ++ synthetic
      ∧ Forall2 (λ data d, Scenario.loads data = Ret d)
                (take k [Scenario.TXT_RUNNING]) events
      ∧ (synthetic = [] ∨ ∃ e, synthetic = [error_event (MSG_STREAM_LOST e)]).
Proof.
  assert (initiate Scenario.client Scenario.running_then_lost "/chat/"
            Scenario.hello_payload = Ret (PStr "t-1")) as Hinit
    by (vm_compute; reflexivity).
  split; [exact Hinit|].
  exact (events_are_the_leading_messages Scenario.lib Scenario.client
           Scenario.running_then_lost "/chat/" Scenario.hello_payload (PStr "t-1")
           [SseEvent Scenario.TXT_RUNNING; SseRaise Scenario.connection_reset;
            SseEvent Scenario.TXT_COMPLETED]
           Hinit eq_refl).
Defined.

(** X14, at work: the answer 202 with the JSON body [[]]. *)
Lemma accepted_body_witness :
  _stream_task Scenario.lib Scenario.client
    (Scenario.server (Ret (Scenario.response 202 "Accepted" "[]" (Ret (PList []))))
       (Ret []))
    "/chat/" Scenario.hello_payload
  = {| yielded := [];
       finish := Some (Exn AttributeError "'list' object has no attribute 'get'");
       io := [IoPost "/chat/" Scenario.hello_payload] |}.
Proof.
  destruct (accepted_body_must_be_an_object Scenario.lib Scenario.client
              (Scenario.server
                 (Ret (Scenario.response 202 "Accepted" "[]" (Ret (PList []))))
                 (Ret []))
              "/chat/" Scenario.hello_payload
              (Scenario.response 202 "Accepted" "[]" (Ret (PList [])))
              eq_refl eq_refl) as [Hbody _].
  exact (Hbody (PList []) eq_refl eq_refl).
Defined.

(** X15, at work: a completed event of an older server, with the
    answer under [payload]. *)
Lemma payload_alias_witness :
  final_answer
    (PDict (<["payload" := PDict {[ "response" := PStr "hi" ]}]>
              {[ "status" := PStr "completed" ]}))
  = Ret (PStr "hi").
Proof.
  assert (({[ "status" := PStr "completed" ]} : gmap string pyval) !! "result" = None)
    as Hno_result by (vm_compute; reflexivity).
  assert (({[ "status" := PStr "completed" ]} : gmap string pyval) !! "payload" = None)
    as Hno_payload by (vm_compute; reflexivity).
  destruct (payload_is_an_alias_of_result {[ "status" := PStr "completed" ]}
              {[ "response" := PStr "hi" ]} Hno_result Hno_payload)
    as (Hresult & Halias & _).
  rewrite Halias, Hresult. vm_compute. reflexivity.
Defined.

(** X8, at work: the accepting server of the scenarios hands out the
    handle [t-1]. *)
Lemma handle_witness :
  initiate Scenario.client Scenario.running_then_completed "/chat/"
    Scenario.hello_payload
  = Ret (PStr "t-1").
Proof.
  apply (handle_only_from_accepted_object Scenario.client
           Scenario.running_then_completed "/chat/" Scenario.hello_payload
           (PStr "t-1")).
  exists (Scenario.response 202 "Accepted" "{...}"
            (Ret (PDict {[ "task_id" := PStr "t-1" ]}))),
         {[ "task_id" := PStr "t-1" ]}.
  repeat split; vm_compute; reflexivity.
Defined.


(** X16, at work: a completed event whose [result] is a string. *)
Lemma consumer_raises_witness :
  (handle_event (PDict (<["result" := PStr "done"]>
                          {[ "status" := PStr "completed" ]}))).2
  = Some (Exn AttributeError "'str' object has no attribute 'get'").
Proof.
  destruct (consumer_raises_only_on_non_objects
              (PDict (<["result" := PStr "done"]> {[ "status" := PStr "completed" ]}))
              (Exn AttributeError "'str' object has no attribute 'get'"))
    as [[_ Hraises] _].
  apply Hraises. right.
  exists (<["result" := PStr "done"]> {[ "status" := PStr "completed" ]}), (PStr "done").
  split; [reflexivity|]. split; [vm_compute; reflexivity|].
  split; [reflexivity|]. split; [reflexivity|].
  left. split; [vm_compute; reflexivity | reflexivity].
Defined.

(** X22, at work: the connection is lost after a running event, and
    the sequence ends in the synthetic error event. *)
Lemma returning_generator_witness :
  finish (_stream_task Scenario.lib Scenario.client Scenario.running_then_lost
            "/chat/" Scenario.hello_payload) = None
  ∧ ends_terminal
      (yielded (_stream_task Scenario.lib Scenario.client Scenario.running_then_lost
                  "/chat/" Scenario.hello_payload)).
Proof.
  assert (finish (_stream_task Scenario.lib Scenario.client Scenario.running_then_lost
                    "/chat/" Scenario.hello_payload) = None) as Hfinish
    by (vm_compute; reflexivity).
  split; [exact Hfinish|].
  apply (returning_generator_ends_terminal Scenario.lib Scenario.client
           Scenario.running_then_lost "/chat/" Scenario.hello_payload Hfinish).
  intros task_id ys _ Hbody. vm_compute in Hbody. discriminate.
Defined.


(* ===================================================================== *)
(** ** Markdown to PDF: properties *)
(* ===================================================================== *)

Section UtilsProperties.

#[local] Set Warnings "-clear-no-such-hyp".

Context (sys : Utils.system).

Implicit Types (md pdf wk : string) (css pyg logo : option string).
Implicit Types (e : Utils.entry) (f : Utils.fault).

Lemma io_bind_unfold {A B} (m : Utils.io A) (k : A → Utils.io B) :
  m ≫= k
  = match m with
    | (tr, Utils.Ok a) => (tr ++ (k a).1, (k a).2)
    | (tr, Utils.Fails f) => (tr, Utils.Fails f)
    end.
Proof. destruct m as [tr [a|f]]; simpl; [by destruct (k a) | done]. Qed.

Lemma optional_text_reads_only (path : option string) (note : string) :
  Forall (λ e, Utils.reads_only e = true) (Utils.optional_text sys path note).1.
Proof.
  unfold Utils.optional_text. destruct path as [p|]; [|by constructor].
  destruct (negb (String.eqb p "") && Utils.path_exists sys p); [|by constructor].
  simpl. destruct (Utils.read_text sys p); by repeat constructor.
Qed.

Lemma logo_element_reads_only logo :
  Forall (λ e, Utils.reads_only e = true) (Utils.logo_element sys logo).1.
Proof.
  unfold Utils.logo_element. destruct logo as [p|]; [|by constructor].
  destruct (negb (String.eqb p "") && Utils.path_exists sys p); [|by constructor].
  simpl. destruct (Utils.read_bytes sys p); by repeat constructor.
Qed.

(** Steps 1 to 3 only log and read. *)
Lemma build_page_reads_only md css pyg logo :
  Forall (λ e, Utils.reads_only e = true) (Utils.build_page sys md css pyg logo).1.
Proof.
  unfold Utils.build_page. rewrite !io_bind_unfold.
  pose proof (optional_text_reads_only css "Reading custom CSS from ") as Hcss.
  pose proof (optional_text_reads_only pyg "Reading Pygments CSS from ") as Hpyg.
  pose proof (logo_element_reads_only logo) as Hlogo.
  destruct (Utils.path_exists sys md); simpl; [|by constructor].
  destruct (Utils.read_text sys md) as [content|f]; simpl; [|by repeat constructor].
  destruct (Utils.markdown sys content) as [body|f]; simpl; [|by repeat constructor].
  destruct (Utils.optional_text sys css _) as [tr1 [user_css|f]]; simpl in *;
    [|by repeat constructor].
  destruct (Utils.optional_text sys pyg _) as [tr2 [pygments_css|f]]; simpl in *;
    [|repeat constructor; by apply Forall_app].
  destruct (Utils.logo_element sys logo) as [tr3 [logo_html|f]]; simpl in *;
    repeat constructor; rewrite ?app_nil_r; repeat (apply Forall_app; split); done.
Qed.

(** In step 4 the temporary file is removed exactly when the
    conversion of that file has returned. *)
Lemma write_pdf_unlink (page pdf wk path : string) :
  Utils.Unlink path ∈ (Utils.write_pdf sys page pdf wk).1
  ↔ Utils.FromFile path pdf ∈ (Utils.write_pdf sys page pdf wk).1
    ∧ Utils.from_file sys path pdf = Utils.Ok ().
Proof.
  unfold Utils.write_pdf, Utils.write_temp. rewrite !io_bind_unfold. simpl.
  destruct (Utils.configuration sys wk) as [[]|f]; simpl; [|set_solver].
  destruct (Utils.temp_create sys) as [tmp|f]; simpl; [|set_solver].
  destruct (Utils.temp_write sys tmp page) as [[]|f]; simpl; [|set_solver].
  destruct (Utils.temp_close sys tmp) as [[]|f]; simpl; [|set_solver].
  destruct (Utils.from_file sys tmp pdf) as [[]|f] eqn:Hconv; simpl.
  - destruct (Utils.unlink sys tmp) as [[]|f]; simpl;
      rewrite !list_elem_of_In; simpl; intuition congruence.
  - rewrite !list_elem_of_In. simpl. intuition congruence.
Qed.

Lemma reads_only_no_error_line (tr : list Utils.entry) :
  Forall (λ e, Utils.reads_only e = true) tr →
  Forall (λ e, Utils.error_line e = false) tr.
Proof. intros Hreads. eapply Forall_impl; [done|]. by intros []. Qed.

(** Step 4 logs no error line, ends in the line of the success when
    it returns, and removes no file but the temporary one. *)
Lemma write_pdf_shape (page pdf wk : string) :
  Forall (λ e, Utils.error_line e = false) (Utils.write_pdf sys page pdf wk).1
  ∧ ((Utils.write_pdf sys page pdf wk).2 = Utils.Ok () →
     last (Utils.write_pdf sys page pdf wk).1
     = Some (Utils.LogInfo ("✅ File successfully saved: " +:+ pdf)))
  ∧ (∀ path, Utils.Unlink path ∈ (Utils.write_pdf sys page pdf wk).1 →
       Utils.temp_create sys = Utils.Ok path).
Proof.
  unfold Utils.write_pdf, Utils.write_temp. rewrite !io_bind_unfold. simpl.
  destruct (Utils.configuration sys wk) as [[]|f]; simpl.
  2:{ split; [by repeat constructor|]. split; [done|].
      intros path. rewrite !list_elem_of_In. simpl. intuition congruence. }
  destruct (Utils.temp_create sys) as [tmp|f]; simpl.
  2:{ split; [by repeat constructor|]. split; [done|].
      intros path. rewrite !list_elem_of_In. simpl. intuition congruence. }
  destruct (Utils.temp_write sys tmp page) as [[]|f]; simpl.
  2:{ split; [by repeat constructor|]. split; [done|].
      intros path. rewrite !list_elem_of_In. simpl. intuition congruence. }
  destruct (Utils.temp_close sys tmp) as [[]|f]; simpl.
  2:{ split; [by repeat constructor|]. split; [done|].
      intros path. rewrite !list_elem_of_In. simpl. intuition congruence. }
  destruct (Utils.from_file sys tmp pdf) as [[]|f]; simpl.
  2:{ split; [by repeat constructor|]. split; [done|].
      intros path. rewrite !list_elem_of_In. simpl. intuition congruence. }
  destruct (Utils.unlink sys tmp) as [[]|f]; simpl.
  - split; [by repeat constructor|]. split; [done|].
    intros path. rewrite !list_elem_of_In. simpl. intuition congruence.
  - split; [by repeat constructor|]. split; [done|].
    intros path. rewrite !list_elem_of_In. simpl. intuition congruence.
Qed.

(** The entries of the [try], split at the end of step 3. *)
Lemma convert_body_split md pdf wk css pyg logo :
  Utils.convert_body sys md pdf wk css pyg logo
  = match Utils.build_page sys md css pyg logo with
    | (tr, Utils.Ok page) =>
        (tr ++ (Utils.write_pdf sys page pdf wk).1, (Utils.write_pdf sys page pdf wk).2)
    | (tr, Utils.Fails f) => (tr, Utils.Fails f)
    end.
Proof. unfold Utils.convert_body. apply io_bind_unfold. Qed.

Lemma convert_trace md pdf wk css pyg logo :
  ∃ line, (Utils.convert_md_to_pdf sys md pdf wk css pyg logo).1
          = (Utils.convert_body sys md pdf wk css pyg logo).1 ++ line
          ∧ Forall (λ e, Utils.error_line e = true) line.
Proof.
  unfold Utils.convert_md_to_pdf.
  destruct (Utils.convert_body sys md pdf wk css pyg logo) as [tr [[]|f]]; simpl.
  - exists []. by rewrite app_nil_r.
  - destruct (Utils.fault_cls f); simpl;
      try (eexists [_]; split; [done | by repeat constructor]).
    exists []. by rewrite app_nil_r.
Qed.

(** X17. When the Markdown file does not exist, nothing is read,
    written or converted: the one entry is the error line of the
    first handler, and the function returns. *)
Theorem missing_markdown_touches_nothing md pdf wk css pyg logo :
  Utils.path_exists sys md = false →
  Utils.convert_md_to_pdf sys md pdf wk css pyg logo
  = ([Utils.LogError ("❌ Error: Исходный файл не найден: " +:+ md)], None).
Proof.
  intros Hmissing.
  unfold Utils.convert_md_to_pdf, Utils.convert_body, Utils.build_page.
  rewrite Hmissing. rewrite !io_bind_unfold. done.
Qed.

(** X18. The temporary HTML file is removed only after its conversion
    has returned: [os.unlink] is called for a path exactly when
    [pdfkit.from_file] was called for that path and returned, and the
    path is the one [tempfile] has created. When the conversion
    fails, the temporary file is left behind. *)
Theorem temp_file_removed_only_after_conversion md pdf wk css pyg logo
    (path : string) :
  (Utils.Unlink path ∈ (Utils.convert_md_to_pdf sys md pdf wk css pyg logo).1
   ↔ Utils.FromFile path pdf ∈ (Utils.convert_md_to_pdf sys md pdf wk css pyg logo).1
     ∧ Utils.from_file sys path pdf = Utils.Ok ())
  ∧ (Utils.Unlink path ∈ (Utils.convert_md_to_pdf sys md pdf wk css pyg logo).1 →
     Utils.temp_create sys = Utils.Ok path).
Proof.
  destruct (convert_trace md pdf wk css pyg logo) as (line & -> & Hline).
  assert (∀ e, Utils.error_line e = false → e ∈ line → False) as Hnot_line.
  { intros e He Hin. rewrite Forall_forall in Hline. apply Hline in Hin. congruence. }
  rewrite convert_body_split.
  pose proof (build_page_reads_only md css pyg logo) as Hreads.
  rewrite Forall_forall in Hreads.
  assert (∀ e, Utils.reads_only e = false →
               e ∈ (Utils.build_page sys md css pyg logo).1 → False) as Hnot_read.
  { intros e He Hin. apply Hreads in Hin. congruence. }
  destruct (Utils.build_page sys md css pyg logo) as [tr [page|f]]; simpl in *.
  - pose proof (write_pdf_unlink page pdf wk path) as Hunlink.
    destruct (write_pdf_shape page pdf wk) as (_ & _ & Hcreated).
    rewrite !elem_of_app. split.
    + split.
      * intros [[Hin|Hin]|Hin]; [by (exfalso; eapply Hnot_read; [|exact Hin])|
                                 |by (exfalso; eapply Hnot_line; [|exact Hin])].
        apply Hunlink in Hin as [Hin Hok]. auto.
      * intros [[[Hin|Hin]|Hin] Hok]; [by (exfalso; eapply Hnot_read; [|exact Hin])|
                                       |by (exfalso; eapply Hnot_line; [|exact Hin])].
        left. right. by apply Hunlink.
    + intros [[Hin|Hin]|Hin]; [by (exfalso; eapply Hnot_read; [|exact Hin])|
                               |by (exfalso; eapply Hnot_line; [|exact Hin])].
      by apply Hcreated.
  - rewrite !elem_of_app. split; [split|].
    + intros [Hin|Hin]; [by (exfalso; eapply Hnot_read; [|exact Hin])|
                         by (exfalso; eapply Hnot_line; [|exact Hin])].
    + intros [[Hin|Hin] _]; [by (exfalso; eapply Hnot_read; [|exact Hin])|
                             by (exfalso; eapply Hnot_line; [|exact Hin])].
    + intros [Hin|Hin]; [by (exfalso; eapply Hnot_read; [|exact Hin])|
                         by (exfalso; eapply Hnot_line; [|exact Hin])].
Qed.

(** X19. A style sheet or a logo that is not there is skipped without
    a word: with a path that is empty or does not exist, the
    conversion runs exactly as with no path given. *)
Theorem absent_assets_are_skipped md pdf wk css pyg logo (p : string) :
  p = "" ∨ Utils.path_exists sys p = false →
  Utils.convert_md_to_pdf sys md pdf wk (Some p) pyg logo
  = Utils.convert_md_to_pdf sys md pdf wk None pyg logo
  ∧ Utils.convert_md_to_pdf sys md pdf wk css (Some p) logo
    = Utils.convert_md_to_pdf sys md pdf wk css None logo
  ∧ Utils.convert_md_to_pdf sys md pdf wk css pyg (Some p)
    = Utils.convert_md_to_pdf sys md pdf wk css pyg None.
Proof.
  intros Habsent.
  assert (negb (String.eqb p "") && Utils.path_exists sys p = false) as Hskip.
  { destruct Habsent as [->|Hp]; [done|]. rewrite Hp. apply andb_false_r. }
  assert (∀ note, Utils.optional_text sys (Some p) note
                  = Utils.optional_text sys None note) as Htext
    by (intros note; unfold Utils.optional_text; by rewrite Hskip).
  assert (Utils.logo_element sys (Some p) = Utils.logo_element sys None) as Hlogo
    by (unfold Utils.logo_element; by rewrite Hskip).
  unfold Utils.convert_md_to_pdf, Utils.convert_body, Utils.build_page.
  by rewrite !Htext, Hlogo.
Qed.

(** X20. The conversion reports every failure and raises none: no
    [Exception] leaves the function. The body of the [try] logs no
    error line; when it returns, its last entry is the line of the
    success; when it fails with an [Exception], exactly one error line
    is logged behind its entries and the function returns; only what
    is no [Exception] is raised to the caller, with no line added. *)
Theorem conversion_reports_and_returns md pdf wk css pyg logo :
  ∃ tr, Forall (λ e, Utils.error_line e = false) tr
    ∧ ((Utils.convert_body sys md pdf wk css pyg logo = (tr, Utils.Ok ())
        ∧ Utils.convert_md_to_pdf sys md pdf wk css pyg logo = (tr, None)
        ∧ last tr = Some (Utils.LogInfo ("✅ File successfully saved: " +:+ pdf)))
       ∨ (∃ f line,
            Utils.convert_body sys md pdf wk css pyg logo = (tr, Utils.Fails f)
            ∧ Utils.fault_cls f ≠ Utils.BaseExceptionOnly
            ∧ Utils.error_line line = true
            ∧ Utils.convert_md_to_pdf sys md pdf wk css pyg logo = (tr ++ [line], None))
       ∨ (∃ f,
            Utils.convert_body sys md pdf wk css pyg logo = (tr, Utils.Fails f)
            ∧ Utils.fault_cls f = Utils.BaseExceptionOnly
            ∧ Utils.convert_md_to_pdf sys md pdf wk css pyg logo = (tr, Some f))).
Proof.
  assert (Forall (λ e, Utils.error_line e = false)
            (Utils.convert_body sys md pdf wk css pyg logo).1
          ∧ ((Utils.convert_body sys md pdf wk css pyg logo).2 = Utils.Ok () →
             last (Utils.convert_body sys md pdf wk css pyg logo).1
             = Some (Utils.LogInfo ("✅ File successfully saved: " +:+ pdf))))
    as [Hclean Hlast].
  { rewrite convert_body_split.
    pose proof (reads_only_no_error_line _ (build_page_reads_only md css pyg logo))
      as Hreads.
    destruct (Utils.build_page sys md css pyg logo) as [tr [page|f]]; simpl in *;
      [|done].
    destruct (write_pdf_shape page pdf wk) as (Hshape & Hsuccess & _).
    split; [by apply Forall_app|].
    intros Hok. specialize (Hsuccess Hok).
    destruct (Utils.write_pdf sys page pdf wk).1 as [|x l] using rev_ind; [done|].
    rewrite last_snoc in Hsuccess. by rewrite app_assoc, last_snoc. }
  unfold Utils.convert_md_to_pdf.
  destruct (Utils.convert_body sys md pdf wk css pyg logo) as [tr [[]|f]]; simpl in *.
  - exists tr. split; [done|]. left. auto.
  - exists tr. split; [done|]. right.
    destruct (Utils.fault_cls f) eqn:Hcls; [left..|right]; [| | |by exists f].
    all: eexists f, _; split; [done|]; split; [by rewrite Hcls|].
    all: split; [|reflexivity]; done.
Qed.

End UtilsProperties.

(** X17, at work: there is no [gone.md]. *)
Lemma missing_markdown_witness :
  Utils.path_exists UtilsScenario.machine "gone.md" = false
  ∧ Utils.convert_md_to_pdf UtilsScenario.machine "gone.md" "out.pdf"
      "/usr/local/bin/wkhtmltopdf" (Some "style.css") (Some "pygments.css")
      (Some "assets/duoscience-logo.png")
    = ([Utils.LogError ("❌ Error: Исходный файл не найден: " +:+ "gone.md")], None).
Proof.
  split; [reflexivity|].
  exact (missing_markdown_touches_nothing UtilsScenario.machine "gone.md" "out.pdf"
           "/usr/local/bin/wkhtmltopdf" (Some "style.css") (Some "pygments.css")
           (Some "assets/duoscience-logo.png") eq_refl).
Defined.

(** X19, at work: there is no [style.css] beside [notes.md]. *)
Lemma absent_assets_witness :
  Utils.path_exists UtilsScenario.machine "style.css" = false
  ∧ Utils.convert_md_to_pdf UtilsScenario.machine "notes.md" "out.pdf"
      "/usr/local/bin/wkhtmltopdf" (Some "style.css") None None
    = Utils.convert_md_to_pdf UtilsScenario.machine "notes.md" "out.pdf"
        "/usr/local/bin/wkhtmltopdf" None None None.
Proof.
  split; [reflexivity|].
  exact (proj1 (absent_assets_are_skipped UtilsScenario.machine "notes.md" "out.pdf"
                  "/usr/local/bin/wkhtmltopdf" None None None "style.css"
                  (or_intror eq_refl))).
Defined.

(** X18, at work: [wkhtmltopdf] fails, and the temporary file stays. *)
Lemma temp_file_witness :
  (Utils.TempCreate
   ∈ (Utils.convert_md_to_pdf UtilsScenario.machine "notes.md" "out.pdf"
        "/usr/local/bin/wkhtmltopdf" None None None).1)
  ∧ (Utils.Unlink "/tmp/tmpk3.html"
     ∉ (Utils.convert_md_to_pdf UtilsScenario.machine "notes.md" "out.pdf"
          "/usr/local/bin/wkhtmltopdf" None None None).1)
  ∧ (Utils.convert_md_to_pdf UtilsScenario.machine "notes.md" "out.pdf"
       "/usr/local/bin/wkhtmltopdf" None None None).2 = None.
Proof.
  split; [|split; [|vm_compute; reflexivity]].
  - apply list_elem_of_In. vm_compute. tauto.
  - intros Hin.
    destruct (temp_file_removed_only_after_conversion UtilsScenario.machine
                "notes.md" "out.pdf" "/usr/local/bin/wkhtmltopdf" None None None
                "/tmp/tmpk3.html") as [Hiff _].
    apply Hiff in Hin as [_ Hok]. discriminate.
Defined.
